(** * RunnerApp: the 7-week 5K training plan

  A shallow embedding of [src/training_plan.py] (class [TrainingPlan]), of
  the distance models and the progression analysis of
  [analyze_training_plan.py], and of the pace settings and table rows of
  [dashboard_app/pace_calculator.py] and [dashboard_app/training_dashboard.py].

  Conventions of the embedding:
  - Python [int] is [Z]; [//] and [%] on a positive divisor are [Z.div] and
    [Z.modulo] (both floor).
  - Python [float] is an exact rational [Q].  Every constant of the plan is
    a short decimal, compared with [Qeq_bool]/[Qle_bool]; results are stated
    up to [Qeq] ([==]).
  - a [dict] is a stdpp [gmap]; a Python list is a [list]. *)

From Stdlib Require Import QArith Qround Qpower Lqa Lia.
From stdpp Require Import gmap strings list fin_maps.

Open Scope Z_scope.

(** ** Python helpers *)

(** [range(lo, hi)] *)
Definition range (lo hi : Z) : list Z :=
map (fun i : nat => lo + Z.of_nat i) (seq 0 (Z.to_nat (hi - lo))).

(** [int(x)] on a float: truncation towards zero. *)
Definition int_of_float (x : Q) : Z := Z.quot (Qnum x) (Z.pos (Qden x)).

(** [x < y] on floats. *)
Definition Qltb (x y : Q) : bool := negb (Qle_bool y x).

(** [xs[i]] for a 0-based index [0 <= i < len(xs)], where every use keeps it:
    the sessions are numbered from 1 and the table is read at
    [session_idx - 1] under [session_idx <= len(...)].  (Python counts a
    negative index from the end and raises below [-len]; no statement below
    takes the embedding there.) *)
Definition index {A} (d : A) (xs : list A) (i : Z) : A := nth (Z.to_nat i) xs d.

(** ** The interval table ([TrainingPlan.__init__]) *)

Definition interval_progress : list (Q * Q) :=
[ (1.0, 2.0); (2.0, 2.0); (3.0, 2.0);
  (4.0, 3.0); (5.0, 3.0); (8.0, 5.0);
  (6.0, 3.0); (8.0, 3.0); (10.0, 3.0);
  (6.0, 2.0); (28.0, 0); (7.0, 2.0);
  (5.0, 1.5); (32.0, 0); (8.0, 2.0);
  (4.0, 1.0); (35.0, 0); (9.0, 2.0);
  (4.0, 1.5); (20.0, 0); (2.0, 1.0) ]%Q.

(** [len(self.interval_progress)] *)
Definition max_sessions : Z := Z.of_nat (length interval_progress).

(** ** The set-count rule of [__init__] (used for the printed base plan) *)

Module Init.

Definition custom_sets : gmap Z Z :=
  list_to_map
    [ (1, 16); (2, 13); (3, 10);
      (4, 7); (5, 6); (6, 5);
      (7, 6); (8, 5); (9, 4) ].

(** Returns [None] where the Python function falls off its end
    (week 4 with an index outside 10..12). *)
Definition compute_sets (session_idx : Z) (run_min : Q) (week : Z) : option Z :=
  if Qeq_bool run_min 0 then Some 1
  else match custom_sets !! session_idx with
       | Some n => Some n
       | None =>
         if week =? 4 then
           if session_idx =? 10 then Some 6
           else if session_idx =? 11 then Some 1
           else if session_idx =? 12 then Some 5
           else None
         else if week =? 5 then
           Some (Z.max 6 (int_of_float (8 - inject_Z (session_idx - 13) * 0.5)%Q))
         else if week =? 6 then
           Some (Z.max 5 (int_of_float (7 - inject_Z (session_idx - 16) * 0.5)%Q))
         else
           Some (Z.max 3 (int_of_float (5 - inject_Z (session_idx - 19) * 0.5)%Q))
       end.

End Init.

(** ** [generate_detailed_sessions] *)

Inductive workout_type :=
| long_intervals | continuous_with_breaks | continuous_run | interval_training.

Record hr_zones := { hr_run : string; hr_walk : string }.

Record session_record := {
session : Z;
week : Z;
day : Z;
day_name : string;
run_minutes : Q;
walk_minutes : Q;
sets : Z;
total_run_time : Q;
total_workout_time : Q;
workout : workout_type;
focus : string;
target_hr_zones : hr_zones
}.

Module Detailed.

Definition custom_sets : gmap Z Z :=
  list_to_map
    [ (1, 16); (2, 12); (3, 10);
      (4, 6); (5, 4); (6, 3);
      (7, 5); (8, 3); (9, 2) ].

(** The week-5/6/7 tail shared by the fall-through of the week-4 block. *)
Definition later_weeks (session_idx week : Z) : Z :=
  if week =? 5 then
    Z.max 6 (int_of_float (8 - inject_Z (session_idx - 13) * 0.5)%Q)
  else if week =? 6 then
    Z.max 5 (int_of_float (7 - inject_Z (session_idx - 16) * 0.5)%Q)
  else
    Z.max 3 (int_of_float (5 - inject_Z (session_idx - 19) * 0.5)%Q).

Definition compute_sets (session_idx : Z) (run_min : Q) (week : Z) : Z :=
  if Qeq_bool run_min 0 then 1
  else if (session_idx <=? max_sessions)
          && Qeq_bool (snd (index (0, 0)%Q interval_progress (session_idx - 1))) 0
  then 1
  else match custom_sets !! session_idx with
       | Some n => n
       | None =>
         if week =? 4 then
           if session_idx =? 10 then 6
           else if session_idx =? 11 then 1
           else if session_idx =? 12 then 5
           else later_weeks session_idx week
         else later_weeks session_idx week
       end.

Definition day_mapping : gmap Z Z := list_to_map [ (1, 1); (2, 2); (3, 4) ].

Definition day_names : list string := [ "Mon"; "Tue"; "Thu" ]%string.

(** The first half of the loop body of [generate_detailed_sessions]:
    [(run_min, walk_min, sets, workout_type)] for one index. *)
Definition session_plan (session_idx : Z) : Q * Q * Z * workout_type :=
  if max_sessions <? session_idx then
    let week := (session_idx - 1) / 3 + 1 in
    if session_idx mod 2 =? 1 then
      (10.0%Q, 3.0%Q, compute_sets session_idx 10.0 week, long_intervals)
    else
      let total_run_time := 20 + (session_idx - max_sessions) * 2 in
      (inject_Z total_run_time, 0%Q, 1, continuous_with_breaks)
  else
    let '(run_min, walk_min) := index (0, 0)%Q interval_progress (session_idx - 1) in
    let week := (session_idx - 1) / 3 + 1 in
    (run_min, walk_min, compute_sets session_idx run_min week,
     if Qeq_bool walk_min 0 then continuous_run else interval_training).

(** The second half: week and day, totals, and the appended record.
    [day_mapping[day_in_week]] cannot miss, [day_in_week] being 1, 2 or 3;
    the [default] is never taken. *)
Definition make_session (session_idx : Z) : session_record :=
  let '(run_min, walk_min, sets, workout_type) := session_plan session_idx in
  let week_num := (session_idx - 1) / 3 + 1 in
  let day_in_week := (session_idx - 1) mod 3 + 1 in
  let day_of_week := default 0 (day_mapping !! day_in_week) in
  let total_run_time := (run_min * inject_Z sets)%Q in
  let total_workout_time :=
    if Qltb 0 walk_min then ((run_min + walk_min) * inject_Z sets)%Q else run_min in
  {| session := session_idx;
     week := week_num;
     day := day_of_week;
     day_name := index ""%string day_names (day_in_week - 1);
     run_minutes := run_min;
     walk_minutes := walk_min;
     sets := sets;
     total_run_time := total_run_time;
     total_workout_time := total_workout_time;
     workout := workout_type;
     focus := "muscle_endurance";
     target_hr_zones :=
       {| hr_run := if day_in_week =? 2 then "140-160 bpm" else "130-150 bpm";
          hr_walk := "100-120 bpm" |} |}.

Definition generate_detailed_sessions (session_count : Z) : list session_record :=
  map make_session (range 1 (session_count + 1)).

End Detailed.


Import Detailed.

(** ** Distance models ([analyze_training_plan.py]) *)

(** One entry of the list built by [extract_session_data]. *)
Record session_data := {
  sd_session : Z;
  sd_week : Z;
  sd_day : string;
  run_min : Q;
  walk_min : Q;
  sd_sets : Z;
  total_run_min : Q;
  total_walk_min : Q;
  total_session_min : Q;
  sd_workout_type : workout_type
}.

Definition extract_session (detailed_session : session_record) : session_data :=
{| sd_session := session detailed_session;
   sd_week := week detailed_session;
   sd_day := day_name detailed_session;
   run_min := run_minutes detailed_session;
   walk_min := walk_minutes detailed_session;
   sd_sets := sets detailed_session;
   total_run_min := total_run_time detailed_session;
   total_walk_min :=
     if Qltb 0 (walk_minutes detailed_session)
     then (walk_minutes detailed_session * inject_Z (sets detailed_session))%Q
     else 0%Q;
   total_session_min := total_workout_time detailed_session;
   sd_workout_type := workout detailed_session |}.

Definition extract_session_data : list session_data :=
map extract_session (generate_detailed_sessions 21).

(** The keys both distance functions store into a session. *)
Record distances := {
  run_distance_m : Q;
  walk_distance_m : Q;
  total_distance_m : Q;
  total_distance_km : Q;
  run_distance_km : Q;
  walk_distance_km : Q
}.

Definition distances_at (s : session_data) (run_speed walk_speed : Q) : distances :=
let run_distance_m := (total_run_min s * run_speed)%Q in
let walk_distance_m := (total_walk_min s * walk_speed)%Q in
let total_distance_m := (run_distance_m + walk_distance_m)%Q in
{| run_distance_m := run_distance_m;
   walk_distance_m := walk_distance_m;
   total_distance_m := total_distance_m;
   total_distance_km := (total_distance_m / 1000)%Q;
   run_distance_km := (run_distance_m / 1000)%Q;
   walk_distance_km := (walk_distance_m / 1000)%Q |}.

(** The 4-tier step function of [get_adjusted_speed]. *)
Definition reduction_factor (interval_run_minutes : Q) : Q :=
if Qle_bool interval_run_minutes 1.0 then 1.0%Q
else if Qle_bool interval_run_minutes 2.5 then 0.9%Q
else if Qle_bool interval_run_minutes 4.0 then 0.81%Q
else 0.729%Q.

(** Returns [(adjusted_speed_kmh, adjusted_speed_m_per_min)]. *)
Definition get_adjusted_speed (interval_run_minutes base_speed_kmh : Q) : Q * Q :=
let adjusted_speed_kmh := (base_speed_kmh * reduction_factor interval_run_minutes)%Q in
let adjusted_speed_m_per_min := ((adjusted_speed_kmh * 1000) / 60)%Q in
(adjusted_speed_kmh, adjusted_speed_m_per_min).

(** The loop body of [calculate_distances_with_fatigue]: the speeds and the
    distances stored into one session. *)
Definition fatigue_session (base_run_speed_kmh walk_speed_m_per_min : Q)
  (s : session_data) : Q * Q * distances :=
let '(adjusted_speed_kmh, adjusted_speed_m_per_min) :=
  get_adjusted_speed (run_min s) base_run_speed_kmh in
(adjusted_speed_kmh, adjusted_speed_m_per_min,
 distances_at s adjusted_speed_m_per_min walk_speed_m_per_min).

Definition calculate_distances_with_fatigue (sessions : list session_data)
  (base_run_speed_kmh walk_speed_m_per_min : Q)
  : list (session_data * (Q * Q * distances)) :=
map (fun s => (s, fatigue_session base_run_speed_kmh walk_speed_m_per_min s)) sessions.

Definition calculate_distances (sessions : list session_data)
  (run_speed_m_per_min walk_speed_m_per_min : Q)
  : list (session_data * distances) :=
map (fun s => (s, distances_at s run_speed_m_per_min walk_speed_m_per_min)) sessions.

(** The default arguments of the two functions. *)
Definition default_base_run_speed_kmh : Q := 12.
Definition default_run_speed_m_per_min : Q := 200.
Definition default_walk_speed_m_per_min : Q := 100.

(** ** The log store ([load_logs]) *)

(** The exception classes that matter to the log store. *)
Inductive exn :=
| JSONDecodeError | UnicodeDecodeError
| OSError | FileNotFoundError | PermissionError | IsADirectoryError
| TypeError.

Inductive result (A : Type) :=
| Ok (a : A)
| Raise (e : exn).
Arguments Ok {A} a.
Arguments Raise {A} e.

#[global] Instance result_bind : MBind result := fun A B k m =>
match m with
| Ok a => k a
| Raise e => Raise e
end.

(** [isinstance(e, IOError)]: [IOError] is an alias of [OSError], the base of
    the file-system errors. *)
Definition is_IOError (e : exn) : bool :=
match e with
| OSError | FileNotFoundError | PermissionError | IsADirectoryError => true
| _ => false
end.

Definition is_JSONDecodeError (e : exn) : bool :=
match e with
| JSONDecodeError => true
| _ => false
end.

(** A key of a stored week: missing, [null], or a value. *)
Inductive field (A : Type) :=
| Missing
| Null
| Val (a : A).
Arguments Missing {A}.
Arguments Null {A}.
Arguments Val {A} a.

(** [d.get(key)]: [None] for a missing key and for [null]. *)
Definition get {A} (f : field A) : option A :=
match f with
| Val a => Some a
| _ => None
end.

(** The dictionary [log_week] stores for one week, with the value types of
    its signature: float pace and distance, int recovery, bool skipped. *)
Record weekly_log := {
  pace : field Q;
  distance : field Q;
  recovery : field Z;
  skipped : field bool;
  comments : field string;
  logged_at : field string
}.

(** The stored mapping.  Its keys are the strings [str(week)] that [log_week]
    writes; they are read back with [int(week_str)], so the model keys the
    mapping by the week number itself. *)
Abbreviation logs_t := (gmap Z weekly_log).

(** [None] is stored as [null]. *)
Definition stored {A} (o : option A) : field A :=
match o with
| Some a => Val a
| None => Null
end.

(** The dictionary [log_week] stores under [str(week)]: every key is present,
    an omitted pace, distance or recovery is [null]. *)
Definition week_entry (pace distance : option Q) (recovery : option Z)
  (skipped : bool) (comments timestamp : string) : weekly_log :=
{| pace := stored pace;
   distance := stored distance;
   recovery := stored recovery;
   skipped := Val skipped;
   comments := Val comments;
   logged_at := Val timestamp |}.

(** The log file as [load_logs] sees it: [os.path.exists] is false, or the
    file exists and [open] followed by [json.load] returns a mapping or raises. *)
Inductive log_file :=
| NoFile
| File (content : result logs_t).

Definition path_exists (self : log_file) : bool :=
match self with
| NoFile => false
| File _ => true
end.

(** [with open(self.log_file, 'r') as f: return json.load(f)] *)
Definition open_and_load (self : log_file) : result logs_t :=
match self with
| NoFile => Raise FileNotFoundError
| File content => content
end.

Definition load_logs (self : log_file) : result logs_t :=
if path_exists self then
  match open_and_load self with
  | Ok logs => Ok logs
  | Raise e =>
    if is_JSONDecodeError e || is_IOError e then Ok ∅   (* warning printed *)
    else Raise e
  end
else Ok ∅.

(** ** [adjust_plan] *)

Definition reduce_intensity : string :=
  "Reduce intensity (shorter intervals, more easy running)".
Definition add_rest : string := "Add extra rest day or reduce intensity".
Definition easier_pace : string := "Consider easier pace or shorter workouts".
Definition maintain_intensity : string :=
  "You're recovering well! Maintain current intensity".
Definition increase_intensity : string :=
  "Consider slightly increasing intensity or adding extra workout".
Definition pace_improved : string := "Great pace improvement! Keep it up!".
Definition pace_slower : string :=
  "Pace seems slower - focus on easy runs this week".

(** Truth value of [data.get("skipped", False)]. *)
Definition skipped_flag (data : weekly_log) : bool :=
match skipped data with
| Val b => b
| _ => false
end.

(** Truth value of a pace: [None] and [0.0] are false. *)
Definition truthy_pace (p : option Q) : bool :=
match p with
| Some q => negb (Qeq_bool q 0)
| None => false
end.

Definition recovery_suggestions (data : weekly_log) : list string :=
match get (recovery data) with
| Some recovery =>
  if recovery <? 4 then [add_rest]
  else if recovery <? 6 then [easier_pace]
  else if 8 <? recovery then [maintain_intensity]
  else if 9 <=? recovery then [increase_intensity]
  else []
| None => []
end.

(* The product [prev_pace * 1.1] is taken exactly here; the code rounds it
   to a double, so the slower-pace branch can differ within one rounding of
   the 10% boundary.  The statements below use the branch [pace < prev_pace]
   only, a comparison of two stored values. *)
Definition pace_suggestions (logs : logs_t) (week : Z) (data : weekly_log)
  : list string :=
if (1 <? week) && truthy_pace (get (pace data)) then
  let prev_pace :=
    match logs !! (week - 1) with
    | Some prev_week_data => get (pace prev_week_data)
    | None => None
    end in
  match get (pace data), prev_pace with
  | Some data_pace, Some pp =>
    if truthy_pace prev_pace && Qltb data_pace pp then [pace_improved]
    else if truthy_pace prev_pace && Qltb (pp * 1.1) data_pace then [pace_slower]
    else []
  | _, _ => []
  end
else [].

(** The list [suggestions] at the end of one iteration. *)
Definition suggestions (logs : logs_t) (week : Z) (data : weekly_log) : list string :=
(if skipped_flag data then [reduce_intensity] else [])
++ recovery_suggestions data
++ pace_suggestions logs week data.

(** [sep.join(xs)] *)
Fixpoint join (sep : string) (xs : list string) : string :=
match xs with
| [] => ""
| [x] => x
| x :: rest => x +:+ sep +:+ join sep rest
end.

(** One iteration of the loop over [logs.items()]. *)
Definition adjust_step (logs : logs_t) (week : Z) (data : weekly_log)
  (adjustments : gmap Z string) : gmap Z string :=
let next_week := week + 1 in
if 7 <? next_week then adjustments
else match suggestions logs week data with
     | [] => adjustments
     | s => <[next_week := join " | " s]> adjustments
     end.

Definition adjust_plan (self : log_file) : result (gmap Z string) :=
logs ← load_logs self;
Ok (map_fold (adjust_step logs) ∅ logs).

(** ** [predict_5k] *)

(** [max(xs, key=lambda x: x[0])] on a non-empty list: the first element
    with the greatest key. *)
Definition max_by_week {A} (x : Z * A) (xs : list (Z * A)) : Z * A :=
fold_left (fun best y => if fst best <? fst y then y else best) xs x.

(** The numbers [predict_5k] computes before it formats them. *)
Record prediction := {
  latest_week : Z;
  current_5k_estimate : Q;
  weeks_remaining : Z;
  weekly_improvement : Q;
  projected_5k_time : Q
}.

(** The text [predict_5k] returns, with the numbers it interpolates:
    - "Not enough data to predict race time. Start logging ...";
    - "No pace data available. Log your running pace to get predictions!";
    - the prediction header with the week and the current estimate, followed
      either by the projected time, the improvement and the weeks remaining,
      or by "You've completed the training plan! Time to race!". *)
Inductive prediction_text :=
| not_enough_data
| no_pace_data
| projected (latest_week : Z) (current_5k_estimate : Q)
    (projected_5k_time potential_improvement : Q) (weeks_remaining : Z)
| completed (latest_week : Z) (current_5k_estimate : Q).

(** [recovery >= 8] and [recovery <= 4] on [latest_data.get("recovery", 5)]:
    a missing key gives 5, a stored [null] gives [None], which does not
    compare with an [int]. *)
Definition improvement_rate (latest_data : weekly_log) : result Q :=
match recovery latest_data with
| Null => Raise TypeError
| Missing => Ok 0.025%Q
| Val recovery =>
  if 8 <=? recovery then Ok 0.03%Q
  else if recovery <=? 4 then Ok 0.015%Q
  else Ok 0.025%Q
end.

Definition weeks_with_pace (logs : logs_t) : list (Z * weekly_log) :=
filter (fun wd => is_Some (get (pace wd.2))) (map_to_list logs).

(** Lines 336-358: the computation on the latest week with a pace. *)
Definition predict (latest_week : Z) (latest_data : weekly_log) (pace : Q)
  : result prediction :=
let current_5k_estimate := (pace * 5)%Q in
let weeks_completed := latest_week in
let weeks_remaining := Z.max 0 (7 - weeks_completed) in
weekly_improvement ← improvement_rate latest_data;
let total_improvement_factor := Qpower (1 - weekly_improvement) weeks_remaining in
let projected_5k_time := (current_5k_estimate * total_improvement_factor)%Q in
Ok {| latest_week := latest_week;
      current_5k_estimate := current_5k_estimate;
      weeks_remaining := weeks_remaining;
      weekly_improvement := weekly_improvement;
      projected_5k_time := projected_5k_time |}.

(** Lines 361-371: the formatted result. *)
Definition format_prediction (p : prediction) : prediction_text :=
if 0 <? weeks_remaining p then
  projected (latest_week p) (current_5k_estimate p) (projected_5k_time p)
    (current_5k_estimate p - projected_5k_time p)%Q (weeks_remaining p)
else completed (latest_week p) (current_5k_estimate p).

(** The latest week with a pace, and what [predict] makes of it. *)
Definition predict_latest (logs : logs_t) : option (result prediction) :=
match weeks_with_pace logs with
| [] => None
| x :: xs =>
  let '(latest_week, latest_data) := max_by_week x xs in
  match get (pace latest_data) with
  | Some pace => Some (predict latest_week latest_data pace)
  | None => None   (* excluded by the filter of [weeks_with_pace] *)
  end
end.

Definition predict_5k (self : log_file) : result prediction_text :=
logs ← load_logs self;
if decide (logs = ∅) then Ok not_enough_data
else match predict_latest logs with
     | None => Ok no_pace_data
     | Some r => p ← r; Ok (format_prediction p)
     end.

(** ** Vocabulary of the statements *)

(** The record of a generated list whose ['session'] field is [n]. *)
Definition session_numbered (l : list session_record) (n : Z) : option session_record :=
List.find (fun r => session r =? n) l.

(** A session of forty half-minute runs: 20 minutes of running in all, as
    the five-minute intervals of session 5. *)
Definition half_minute_session : session_data :=
{| sd_session := 0; sd_week := 0; sd_day := "Mon";
   run_min := 0.5; walk_min := 1.0; sd_sets := 40;
   total_run_min := 20.0; total_walk_min := 40.0; total_session_min := 60.0;
   sd_workout_type := interval_training |}.

(** [needle in text] on strings. *)
Fixpoint text_includes (needle text : string) : bool :=
String.prefix needle text
|| match text with
   | String _ rest => text_includes needle rest
   | EmptyString => false
   end.

(** The states of the log file that the fail-soft contract of [load_logs]
    speaks of: there is no file; [open] or the read fails with an [IOError];
    the content is not a JSON document, either because [json.load] rejects
    the text ([JSONDecodeError]) or because the bytes are not text in the
    file's encoding, which [json.load] meets as a [UnicodeDecodeError] while
    it reads the file. *)
Definition absent (self : log_file) : Prop := self = NoFile.
Definition unreadable (self : log_file) : Prop :=
exists e, is_IOError e = true /\ self = File (Raise e).
Definition rejected_by_parser (self : log_file) : Prop :=
self = File (Raise JSONDecodeError).
Definition undecodable (self : log_file) : Prop :=
self = File (Raise UnicodeDecodeError).
Definition malformed (self : log_file) : Prop :=
rejected_by_parser self \/ undecodable self.

(** C9 as it is stated. *)
Definition load_logs_as_stated : Prop :=
forall self, absent self \/ unreadable self \/ malformed self -> load_logs self = Ok ∅.

(** Week [w] with record [d] is the highest-numbered week with a pace [p]. *)
Definition latest_with_pace (logs : logs_t) (w : Z) (d : weekly_log) (p : Q) : Prop :=
logs !! w = Some d
/\ get (pace d) = Some p
/\ forall w' d', logs !! w' = Some d' -> is_Some (get (pace d')) -> w' <= w.

(** The weekly improvement rate as the specification words it: 3% for a
    recovery of 8 or more, 1.5% for 4 or less, 2.5% otherwise, also when the
    week has no recovery value. *)
Definition stated_rate (d : weekly_log) : Q :=
match get (recovery d) with
| Some r => if 8 <=? r then 0.03%Q else if r <=? 4 then 0.015%Q else 0.025%Q
| None => 0.025%Q
end.

(** C7 as it is stated, on the numbers [predict_5k] computes. *)
Definition predict_5k_as_stated (logs : logs_t) : Prop :=
forall w d p,
  latest_with_pace logs w d p ->
  exists pr,
    predict_latest logs = Some (Ok pr)
    /\ latest_week pr = w
    /\ (current_5k_estimate pr == p * 5)%Q
    /\ (projected_5k_time pr == p * 5 * Qpower (1 - stated_rate d) (7 - w))%Q.

(** Sample logs, as [log_week] writes them. *)
Definition logs_recovery_9 : logs_t :=
{[ 1 := week_entry None None (Some 9) false "" "2025-01-06 08:00:00" ]}.
Definition logs_week_8 : logs_t :=
{[ 8 := week_entry (Some 6.0%Q) None (Some 7) false "" "2025-02-24 08:00:00" ]}.
Definition logs_pace_only : logs_t :=
{[ 1 := week_entry (Some 6.0%Q) None None false "" "2025-01-06 08:00:00" ]}.
Definition logs_week_2 : logs_t :=
{[ 2 := week_entry (Some 6.0%Q) None (Some 7) false "" "2025-01-13 08:00:00" ]}.
Definition logs_no_pace : logs_t :=
{[ 1 := week_entry None (Some 3.0%Q) (Some 6) false "" "2025-01-06 08:00:00" ]}.

(** The set-count tables of [__init__] and of [generate_detailed_sessions]
    disagree at index [i]. *)
Definition tables_differ (i : Z) : Prop := Init.custom_sets !! i ≠ Detailed.custom_sets !! i.

(** Both tables map the indices 1..9, and they disagree exactly on [idxs]. *)
Definition tables_differ_exactly_at (idxs : list Z) : Prop :=
dom Init.custom_sets = list_to_set (range 1 10)
/\ dom Detailed.custom_sets = list_to_set (range 1 10)
/\ forall i, tables_differ i <-> i ∈ idxs.

(** ** Writing the log: [save_logs], [log_week] *)

(** [save_logs]: the write replaces the whole file with the mapping; when the
    file cannot be opened for writing the [IOError] is reported and the file
    stays as it was.  [writable] tells which of the two happens. *)
Definition save_logs (writable : bool) (self : log_file) (logs : logs_t) : log_file :=
if writable then File (Ok logs) else self.

(** [log_week]; [timestamp] is the formatted [datetime.now()]. *)
Definition log_week (writable : bool) (timestamp : string) (self : log_file)
  (week : Z) (pace distance : option Q) (recovery : option Z)
  (skipped : bool) (comments : string) : result log_file :=
logs ← load_logs self;
Ok (save_logs writable self
      (<[week := week_entry pace distance recovery skipped comments timestamp]> logs)).

(** ** [get_current_week] *)

(** [max(xs)] of a non-empty list of integers. *)
Definition max_list (x : Z) (xs : list Z) : Z := fold_left Z.max xs x.

Definition get_current_week (self : log_file) : result Z :=
logs ← load_logs self;
if decide (logs = ∅) then Ok 0
else match (map_to_list logs).*1 with
     | [] => Ok 0
     | w :: ws => Ok (max_list w ws)
     end.

(** ** [analyze_progressive_overload] ([analyze_training_plan.py]) *)

Inductive analysis_error := KeyError | IndexError | ZeroDivisionError.

Inductive overload_rating := good_overload | some_regression | too_many_regressions.

(** The loop [for i in range(1, len(run_times))] counting the sessions whose
    running time is below the previous one. *)
Fixpoint count_decreases (run_times : list Q) : nat :=
match run_times with
| prev :: (cur :: _) as rest =>
  (if Qltb cur prev then 1 else 0) + count_decreases rest
| _ => 0
end%nat.

Definition rate_decreases (decreases : nat) : overload_rating :=
if (decreases <=? 2)%nat then good_overload
else if (decreases <=? 4)%nat then some_regression
else too_many_regressions.

(** The numbers of the progression summary. *)
Record progression := {
  starting_run_time : Q;
  final_run_time : Q;
  total_increase : Q;
  percent_increase : Q;
  avg_weekly_increase : Q;
  decreases : nat;
  progressions : Z;
  rating : overload_rating
}.

(** A session as the analysis receives it is an entry of
    [extract_session_data] together with the distance keys, which are there
    once [calculate_distances] or [calculate_distances_with_fatigue] has
    stored them ([None] before). *)
Definition has_distances (s : session_data * option distances) : bool :=
match s.2 with
| Some _ => true
| None => false
end.

(** The sessions [calculate_distances_with_fatigue] returns, as the analysis
    reads them. *)
Definition with_fatigue_distances (l : list (session_data * (Q * Q * distances)))
  : list (session_data * option distances) :=
map (fun sd => (sd.1, Some sd.2.2)) l.

(** [[s['total_distance_km'] for s in sessions]] raises [KeyError] at a
    session without distances, before anything else can fail;
    [run_times[0]] and [run_times[-1]] raise on an empty list; the
    percentage divides by the first running time. *)
Definition analyze_progressive_overload
  (sessions : list (session_data * option distances))
  : analysis_error + progression :=
let run_times := map (fun s => total_run_min s.1) sessions in
if negb (forallb has_distances sessions) then inl KeyError
else
  match run_times with
  | [] => inl IndexError
  | first :: _ =>
    let final := List.last run_times first in
    let total_increase := (final - first)%Q in
    let avg_weekly_increase := (total_increase / 6)%Q in
    if Qeq_bool first 0 then inl ZeroDivisionError
    else
      let decreases := count_decreases run_times in
      inr {| starting_run_time := first;
             final_run_time := final;
             total_increase := total_increase;
             percent_increase := (total_increase / first * 100)%Q;
             avg_weekly_increase := avg_weekly_increase;
             decreases := decreases;
             progressions := Z.of_nat (length sessions) - 1;
             rating := rate_decreases decreases |}
  end.

(** ** Pace settings ([dashboard_app/pace_calculator.py]) *)

(** The keys of [st.session_state] the calculator reads; [None] is a key
    that is not set. *)
Record pace_settings := {
  running_pace_min : option Z;
  running_pace_sec : option Z;
  walking_pace_min : option Z;
  walking_pace_sec : option Z;
  fixed_pace_mode : option bool
}.

(** [pace_min + (pace_sec / 60.0)] *)
Definition pace_total_min (pace_min pace_sec : Z) : Q :=
(inject_Z pace_min + inject_Z pace_sec / 60.0)%Q.

Definition get_running_speed_kmh (st : pace_settings) : Q :=
let pace_min := default 7 (running_pace_min st) in
let pace_sec := default 30 (running_pace_sec st) in
let pace_total_min := pace_total_min pace_min pace_sec in
if Qltb 0 pace_total_min then (60 / pace_total_min)%Q else 8.0%Q.


Definition is_fixed_pace_mode (st : pace_settings) : bool :=
default true (fixed_pace_mode st).

(** ** The dashboard rows ([dashboard_app/training_dashboard.py]) *)

(** One row of the dashboard table. *)
Record dashboard_row := {
  row_session : Z;
  row_week : Z;
  row_day : Z;
  row_run : Q;
  row_walk : Q;
  row_sets : Z;
  row_total_run : Q;
  row_total_workout : Q;
  row_workout_type : string
}.

Definition day_name_to_number : gmap string Z :=
list_to_map
  [ ("Mon", 1); ("Tue", 2); ("Wed", 3); ("Thu", 4);
    ("Fri", 5); ("Sat", 6); ("Sun", 7) ]%string.

Definition workout_type_name (t : workout_type) : string :=
match t with
| long_intervals => "long_intervals"
| continuous_with_breaks => "continuous_with_breaks"
| continuous_run => "continuous_run"
| interval_training => "interval_training"
end.

(** One row of [get_session_data]. *)
Definition session_row (s : session_record) : dashboard_row :=
{| row_session := session s;
   row_week := week s;
   row_day := default 1 (day_name_to_number !! day_name s);
   row_run := run_minutes s;
   row_walk := walk_minutes s;
   row_sets := sets s;
   row_total_run := total_run_time s;
   row_total_workout := total_workout_time s;
   row_workout_type := workout_type_name (workout s) |}.

Definition get_session_data : list dashboard_row :=
map session_row (generate_detailed_sessions 21).

(** The 5-band speed of the dashboard's [calculate_distances]. *)
Definition dashboard_speed_kmh (is_fixed_pace : bool) (base_speed_kmh run_min : Q) : Q :=
if is_fixed_pace then base_speed_kmh
else if Qle_bool run_min 1 then base_speed_kmh
else if Qle_bool run_min 2.5 then (base_speed_kmh * 0.9)%Q
else if Qle_bool run_min 5 then (base_speed_kmh * 0.8)%Q
else if Qle_bool run_min 10 then (base_speed_kmh * 0.75)%Q
else (base_speed_kmh * 0.7)%Q.

(** The loop body of the dashboard's [calculate_distances]:
    [(run_distance, total_distance)] of one row, in km. *)
Definition dashboard_distances (st : pace_settings) (row : dashboard_row) : Q * Q :=
let base_speed_kmh := get_running_speed_kmh st in
let is_fixed_pace := is_fixed_pace_mode st in
let walk_speed_m_per_min := 100%Q in
let run_min := row_run row in
let walk_min := row_walk row in
let sets := inject_Z (row_sets row) in
let speed_kmh := dashboard_speed_kmh is_fixed_pace base_speed_kmh run_min in
let '(run_distance, walking_distance) :=
  if Qeq_bool walk_min 0 then (((run_min / 60) * speed_kmh)%Q, 0%Q)
  else ((sets * (run_min / 60) * speed_kmh)%Q,
        (sets * (walk_min / 1000) * walk_speed_m_per_min)%Q) in
(run_distance, (run_distance + walking_distance)%Q).

(** The result of an arithmetic operation on numpy [int64] values: it wraps
    around into [-2^63, 2^63). *)
Definition int64 (z : Z) : Z :=
(z + 9223372036854775808) mod 18446744073709551616 - 9223372036854775808.

(** [add_new_session]: the table with one more row.  The Session cell of
    the last row is a numpy [int64], and so is everything computed from it.
    [day_mapping] cannot miss, [session_in_week] being 1, 2 or 3. *)
Definition add_new_session (df : list dashboard_row) : list dashboard_row :=
let new_session :=
  match List.last (map Some df) None with
  | None =>
    {| row_session := 1; row_week := 1; row_day := 1;
       row_run := 1.0; row_walk := 2.0; row_sets := 10;
       row_total_run := 10.0; row_total_workout := 30.0;
       row_workout_type := "Intervals" |}
  | Some last_session =>
    let new_session_num := int64 (row_session last_session + 1) in
    let sessions_per_week := 3 in
    let new_week := int64 (int64 (new_session_num - 1) / sessions_per_week + 1) in
    let session_in_week :=
      int64 (int64 (new_session_num - 1) mod sessions_per_week + 1) in
    let new_day := default 0 (day_mapping !! session_in_week) in
    let run := 5.0%Q in
    let walk := 1.5%Q in
    let sets := 6 in
    if Qeq_bool walk 0 then
      {| row_session := new_session_num; row_week := new_week; row_day := new_day;
         row_run := run; row_walk := walk; row_sets := sets;
         row_total_run := run; row_total_workout := run;
         row_workout_type := "Continuous" |}
    else
      let total_run := (run * inject_Z sets)%Q in
      let total_walk := (walk * inject_Z sets)%Q in
      {| row_session := new_session_num; row_week := new_week; row_day := new_day;
         row_run := run; row_walk := walk; row_sets := sets;
         row_total_run := total_run; row_total_workout := (total_run + total_walk)%Q;
         row_workout_type := "Intervals" |}
  end in
df ++ [new_session].

(** ** More vocabulary *)

(** The two workout types without a walk segment. *)
Definition is_continuous (t : workout_type) : bool :=
match t with
| continuous_run | continuous_with_breaks => true
| _ => false
end.

(** Week [w] is logged and no logged week is later. *)
Definition latest_logged (logs : logs_t) (w : Z) : Prop :=
is_Some (logs !! w) /\ forall w', is_Some (logs !! w') -> w' <= w.

(** The entry [adjust_plan] stores for the week after [week], if any. *)
Definition adjustment_for (logs : logs_t) (week : Z) (data : weekly_log) : option string :=
if 7 <? week + 1 then None
else match suggestions logs week data with
     | [] => None
     | s => Some (join " | " s)
     end.

(** The advice [adjust_plan] gives for a recovery below 6 or above 8. *)
Definition recovery_advice (recovery : Z) : string :=
if recovery <? 4 then add_rest
else if recovery <? 6 then easier_pace
else maintain_intensity.

(** Sample logs: two weeks with an improving pace. *)
Definition logs_improving : logs_t :=
<[ 1 := week_entry (Some 7.0%Q) None (Some 6) false "" "2025-01-06 08:00:00" ]>
  {[ 2 := week_entry (Some 6.5%Q) None (Some 7) false "" "2025-01-13 08:00:00" ]}.


(** The session number [add_new_session] gives its new row. *)
Definition next_session_number (df : list dashboard_row) : Z :=
match List.last (map Some df) None with
| Some last_session => row_session last_session + 1
| None => 1
end.

(** Pace settings with nothing set: the defaults apply. *)
Definition default_settings : pace_settings :=
{| running_pace_min := None; running_pace_sec := None;
   walking_pace_min := None; walking_pace_sec := None;
   fixed_pace_mode := None |}.

(** The pace settings after the fixed-pace toggle is set to [b]. *)
Definition with_fixed_pace (b : bool) (st : pace_settings) : pace_settings :=
{| running_pace_min := running_pace_min st;
   running_pace_sec := running_pace_sec st;
   walking_pace_min := walking_pace_min st;
   walking_pace_sec := walking_pace_sec st;
   fixed_pace_mode := Some b |}.

(** * Session expansion: shape of the generated list *)

Section Shape.

Lemma length_range lo hi : length (range lo hi) = Z.to_nat (hi - lo).
Proof. unfold range. by rewrite length_map, length_seq. Qed.

Lemma lookup_range lo hi (k : nat) :
  (k < Z.to_nat (hi - lo))%nat -> range lo hi !! k = Some (lo + Z.of_nat k).
Proof.
  intros Hk. unfold range.
  change (map ?f ?l) with (f <$> l).
  rewrite list_lookup_fmap, lookup_seq_lt by done. done.
Qed.

Lemma length_generate count :
  length (generate_detailed_sessions count) = Z.to_nat count.
Proof.
  unfold generate_detailed_sessions.
  rewrite length_map, length_range. f_equal. lia.
Qed.

Lemma lookup_generate count (k : nat) :
  Z.of_nat k < count ->
  generate_detailed_sessions count !! k = Some (make_session (Z.of_nat k + 1)).
Proof.
  intros Hk. unfold generate_detailed_sessions.
  change (map ?f ?l) with (f <$> l).
  rewrite list_lookup_fmap, lookup_range by lia.
  simpl. do 2 f_equal. lia.
Qed.

Lemma generate_elem count r :
  r ∈ generate_detailed_sessions count ->
  exists i, 1 <= i <= count /\ r = make_session i.
Proof.
  intros [k Hk]%list_elem_of_lookup.
  assert (Hlt : (k < Z.to_nat count)%nat).
  { rewrite <- length_generate. eapply lookup_lt_Some, Hk. }
  rewrite lookup_generate in Hk by lia.
  exists (Z.of_nat k + 1). split; [lia | congruence].
Qed.

Lemma session_make_session i : session (make_session i) = i.
Proof. unfold make_session. by destruct (session_plan i) as [[[? ?] ?] ?]. Qed.

Lemma week_make_session i : week (make_session i) = (i - 1) / 3 + 1.
Proof. unfold make_session. by destruct (session_plan i) as [[[? ?] ?] ?]. Qed.

Lemma day_make_session i :
  day (make_session i) = default 0 (day_mapping !! ((i - 1) mod 3 + 1))
  /\ day_name (make_session i) = index ""%string day_names ((i - 1) mod 3).
Proof.
  unfold make_session. destruct (session_plan i) as [[[? ?] ?] ?]. simpl.
  split; [done | f_equal; lia].
Qed.

Lemma slot_cases i :
  (i - 1) mod 3 = 0 \/ (i - 1) mod 3 = 1 \/ (i - 1) mod 3 = 2.
Proof. pose proof (Z.mod_pos_bound (i - 1) 3). lia. Qed.

End Shape.

(** C1 (generate_detailed_sessions, shape): for every count >= 1 the list has
    exactly count records; the record at position k (from 0) has session
    k + 1, so the session fields are 1..count and strictly increasing; every
    record has week = (session - 1) // 3 + 1; and its day slot, the position
    1..3 of the session within its week, maps to Mon, Tue, Thu (days 1, 2, 4). *)
Theorem generate_detailed_sessions_shape (count : Z) :
  1 <= count ->
  let l := generate_detailed_sessions count in
  Z.of_nat (length l) = count
  /\ (forall k : nat, Z.of_nat k < count -> session <$> l !! k = Some (Z.of_nat k + 1))
  /\ (forall (i j : nat) ri rj,
        (i < j)%nat -> l !! i = Some ri -> l !! j = Some rj -> session ri < session rj)
  /\ Forall (fun r =>
        week r = (session r - 1) / 3 + 1
        /\ exists slot,
             1 <= slot <= 3
             /\ session r = 3 * (week r - 1) + slot
             /\ day r = index 0 [1; 2; 4] (slot - 1)
             /\ day_name r = index ""%string ["Mon"; "Tue"; "Thu"]%string (slot - 1)) l.
Proof.
  intros Hc l. subst l. repeat split.
  - rewrite length_generate. lia.
  - intros k Hk. rewrite lookup_generate by done. simpl.
    by rewrite session_make_session.
  - intros i j ri rj Hij Hi Hj.
    assert (Z.of_nat j < count).
    { apply lookup_lt_Some in Hj. rewrite length_generate in Hj. lia. }
    rewrite lookup_generate in Hi, Hj by lia.
    injection Hi as <-. injection Hj as <-.
    rewrite !session_make_session. lia.
  - apply Forall_forall. intros r [i [Hi ->]]%generate_elem.
    rewrite session_make_session, week_make_session.
    split; [done |].
    destruct (day_make_session i) as [Hd Hn].
    exists ((i - 1) mod 3 + 1).
    pose proof (Z.div_mod (i - 1) 3 ltac:(lia)).
    rewrite Hd, Hn.
    destruct (slot_cases i) as [E | [E | E]]; rewrite E;
      (repeat split; try lia; reflexivity).
Qed.

(** A witness of C1: seven sessions. *)
Lemma generate_detailed_sessions_shape_witness :
  1 <= 7 /\ Z.of_nat (length (generate_detailed_sessions 7)) = 7.
Proof.
  split; [lia |].
  exact (proj1 (generate_detailed_sessions_shape 7 ltac:(lia))).
Defined.

(** * Session expansion: totals *)

Section Totals.

Lemma Qltb_lt x y : Qltb x y = true <-> (x < y)%Q.
Proof.
  unfold Qltb. rewrite negb_true_iff, <- not_true_iff_false, Qle_bool_iff.
  split; [apply Qnot_le_lt | apply Qlt_not_le].
Qed.

Lemma Qltb_zero_eq w : (w == 0)%Q -> Qltb 0 w = false.
Proof.
  intros Hw. apply not_true_iff_false. rewrite Qltb_lt, Hw. apply Qlt_irrefl.
Qed.

Lemma totals_make_session i :
  let r := make_session i in
  total_run_time r = (run_minutes r * inject_Z (sets r))%Q
  /\ total_workout_time r =
       if Qltb 0 (walk_minutes r)
       then ((run_minutes r + walk_minutes r) * inject_Z (sets r))%Q
       else run_minutes r.
Proof. unfold make_session. by destruct (session_plan i) as [[[? ?] ?] ?]. Qed.

Lemma walk_make_session i : walk_minutes (make_session i) = (session_plan i).1.1.2.
Proof. unfold make_session. by destruct (session_plan i) as [[[? ?] ?] ?]. Qed.

(** A check that holds on every element of [range lo hi] holds at each index
    of the range. *)
Lemma forallb_range (P : Z -> bool) lo hi i :
  forallb P (range lo hi) = true -> lo <= i < hi -> P i = true.
Proof.
  intros Hall Hi. eapply forallb_forall; [exact Hall |].
  unfold range. apply in_map_iff. exists (Z.to_nat (i - lo)).
  split; [lia |]. apply in_seq. lia.
Qed.

(** A walk time is never negative: it is zero or strictly positive. *)
Lemma walk_nonneg i :
  1 <= i ->
  (walk_minutes (make_session i) == 0 \/ 0 < walk_minutes (make_session i))%Q.
Proof.
  intros Hi.
  assert (Hle : (0 <= walk_minutes (make_session i))%Q).
  { rewrite walk_make_session.
    destruct (decide (i <= max_sessions)) as [Hle | Hgt].
    - apply Qle_bool_iff.
      apply (forallb_range (fun n => Qle_bool 0 (session_plan n).1.1.2) 1 22);
        [by vm_compute | change max_sessions with 21 in Hle; lia].
    - unfold session_plan.
      destruct (max_sessions <? i) eqn:E; [| lia].
      by destruct (i mod 2 =? 1). }
  apply Qle_lt_or_eq in Hle as [Hlt | Heq]; [by right | left; by symmetry].
Qed.

End Totals.

(** C2 (generate_detailed_sessions, totals): for every count >= 1, every
    record has total_run_time = run_minutes * sets, total_workout_time =
    run_minutes when walk_minutes is 0 and (run_minutes + walk_minutes) * sets
    when walk_minutes > 0; one of the two cases always applies. *)
Theorem generate_detailed_sessions_totals (count : Z) :
  1 <= count ->
  Forall (fun r =>
    (total_run_time r == run_minutes r * inject_Z (sets r)
     /\ (walk_minutes r == 0 -> total_workout_time r == run_minutes r)
     /\ (0 < walk_minutes r ->
         total_workout_time r == (run_minutes r + walk_minutes r) * inject_Z (sets r))
     /\ (walk_minutes r == 0 \/ 0 < walk_minutes r))%Q)
    (generate_detailed_sessions count).
Proof.
  intros _. apply Forall_forall. intros r [i [Hi ->]]%generate_elem.
  destruct (totals_make_session i) as [Hrun Hwork]. simpl in Hrun, Hwork.
  rewrite Hrun, Hwork. repeat split.
  - intros Hw. by rewrite (Qltb_zero_eq _ Hw).
  - intros Hw. apply Qltb_lt in Hw. by rewrite Hw.
  - apply walk_nonneg. lia.
Qed.

(** A witness of C2: the 21 sessions of the plan. *)
Lemma generate_detailed_sessions_totals_witness :
  1 <= 21 /\
  Forall (fun r => (total_run_time r == run_minutes r * inject_Z (sets r))%Q)
    (generate_detailed_sessions 21).
Proof.
  split; [lia |].
  eapply Forall_impl; [exact (generate_detailed_sessions_totals 21 ltac:(lia)) |].
  intros r Hr. exact (proj1 Hr).
Defined.

(** C3 (set counts of the 21-session plan): session 1 has 16 sets, session 9
    has 2, the continuous sessions 11, 14, 17 and 20 have 1, and session 6 is
    8.0 min run / 5.0 min walk x 3 with total_run_time 24.0 and
    total_workout_time 39.0. *)
Theorem sessions_21_set_counts :
  let l := generate_detailed_sessions 21 in
  sets <$> session_numbered l 1 = Some 16
  /\ sets <$> session_numbered l 9 = Some 2
  /\ Forall (fun n => sets <$> session_numbered l n = Some 1
                      /\ workout <$> session_numbered l n = Some continuous_run)
       [11; 14; 17; 20]
  /\ exists r6,
       session_numbered l 6 = Some r6
       /\ (run_minutes r6 == 8.0)%Q /\ (walk_minutes r6 == 5.0)%Q /\ sets r6 = 3
       /\ (total_run_time r6 == 24.0)%Q /\ (total_workout_time r6 == 39.0)%Q.
Proof.
  simpl. split; [reflexivity |]. split; [reflexivity |]. split.
  - repeat constructor.
  - eexists. split; [vm_compute; reflexivity |].
    repeat split; reflexivity.
Qed.

(** * The two set-count tables *)

Section Tables.

Lemma custom_sets_outside i :
  ~ 1 <= i <= 9 ->
  Init.custom_sets !! i = None /\ Detailed.custom_sets !! i = None.
Proof.
  intros Hi.
  split; apply not_elem_of_list_to_map_1; simpl;
    rewrite !not_elem_of_cons; repeat split; try lia; apply not_elem_of_nil.
Qed.

End Tables.

(** C8, as stated, fails: the tables also disagree at index 4 (7 sets in
    [__init__], 6 in [generate_detailed_sessions]). *)
Lemma tables_differ_at_4 : ~ tables_differ_exactly_at [2; 5; 6; 7; 8; 9].
Proof.
  intros (_ & _ & H).
  assert (H4 : tables_differ 4) by (vm_compute; discriminate).
  apply H in H4. revert H4.
  rewrite !elem_of_cons, elem_of_nil. lia.
Qed.

(** C8 (amended): both tables map exactly the indices 1..9 and they disagree
    exactly at 2, 4, 5, 6, 7, 8 and 9; they agree at 1 and 3 only. *)
Theorem custom_sets_tables_differ :
  tables_differ_exactly_at [2; 4; 5; 6; 7; 8; 9]
  /\ Init.custom_sets !! 1 = Detailed.custom_sets !! 1
  /\ Init.custom_sets !! 3 = Detailed.custom_sets !! 3.
Proof.
  split; [| split; reflexivity].
  split; [| split].
  - unfold Init.custom_sets. rewrite dom_list_to_map_L. reflexivity.
  - unfold Detailed.custom_sets. rewrite dom_list_to_map_L. reflexivity.
  - intros i. destruct (decide (1 <= i <= 9)) as [Hin | Hout].
    + pose proof (forallb_range
                    (fun i => bool_decide (tables_differ i <-> i ∈ [2; 4; 5; 6; 7; 8; 9]))
                    1 10 i) as Hb.
      cbv beta in Hb. apply bool_decide_eq_true_1 in Hb; [done | by vm_compute | lia].
    + destruct (custom_sets_outside i Hout) as [H1 H2].
      unfold tables_differ. rewrite H1, H2, !elem_of_cons, elem_of_nil.
      split; [done | lia].
Qed.

(** * The fatigue model *)

Section Fatigue.

Lemma Qle_bool_false x y : Qle_bool x y = false -> (y < x)%Q.
Proof.
  intros H. apply Qnot_le_lt. intros Hle. apply Qle_bool_iff in Hle. congruence.
Qed.

(** The step function never goes up. *)
Lemma reduction_factor_antitone r1 r2 :
  (r1 <= r2)%Q -> (reduction_factor r2 <= reduction_factor r1)%Q.
Proof.
  intros Hr. unfold reduction_factor.
  repeat match goal with
  | |- context [Qle_bool ?a ?b] =>
    let E := fresh "E" in
    destruct (Qle_bool a b) eqn:E;
    [apply Qle_bool_iff in E | apply Qle_bool_false in E]
  end; try lra.
Qed.

Lemma reduction_factor_above_one r :
  (1.0 < r)%Q -> (reduction_factor r <= 0.9)%Q.
Proof.
  intros Hr. unfold reduction_factor.
  repeat match goal with
  | |- context [Qle_bool ?a ?b] =>
    let E := fresh "E" in
    destruct (Qle_bool a b) eqn:E;
    [apply Qle_bool_iff in E | apply Qle_bool_false in E]
  end; try lra.
Qed.

(** [get_adjusted_speed] in m/min is the base speed scaled by the factor. *)
Lemma adjusted_speed_m_per_min r base :
  ((get_adjusted_speed r base).2 == base * reduction_factor r * (50 # 3))%Q.
Proof. unfold get_adjusted_speed. simpl. field. Qed.

Lemma scale_le (t b f g : Q) :
  (0 <= t)%Q -> (0 <= b)%Q -> (f <= g)%Q -> (t * (b * f * (50 # 3)) <= t * (b * g * (50 # 3)))%Q.
Proof.
  intros Ht Hb Hfg.
  rewrite !(Qmult_comm t). apply Qmult_le_compat_r; [| done].
  apply Qmult_le_compat_r; [| done].
  rewrite !(Qmult_comm b). by apply Qmult_le_compat_r.
Qed.

End Fatigue.

Section Distances.

Lemma fatigue_run_distance base walk_speed s :
  (run_distance_m (fatigue_session base walk_speed s).2
   == total_run_min s * (base * reduction_factor (run_min s) * (50 # 3)))%Q.
Proof.
  unfold fatigue_session, get_adjusted_speed, distances_at. simpl. field.
Qed.

Lemma constant_run_distance run_speed walk_speed base s :
  (run_speed == base * 1000 / 60)%Q ->
  (run_distance_m (distances_at s run_speed walk_speed)
   == total_run_min s * (base * 1 * (50 # 3)))%Q.
Proof. intros H. unfold distances_at. simpl. rewrite H. field. Qed.

Lemma reduction_factor_le_one r : (reduction_factor r <= 1)%Q.
Proof.
  unfold reduction_factor.
  repeat match goal with
  | |- context [Qle_bool ?a ?b] => destruct (Qle_bool a b)
  end; lra.
Qed.

Lemma lookup_calculate_distances sessions run_speed walk_speed (k : nat) :
  calculate_distances sessions run_speed walk_speed !! k
  = (fun s => (s, distances_at s run_speed walk_speed)) <$> sessions !! k.
Proof.
  unfold calculate_distances. change (map ?f ?l) with (f <$> l).
  apply list_lookup_fmap.
Qed.

Lemma lookup_calculate_distances_with_fatigue sessions base walk_speed (k : nat) :
  calculate_distances_with_fatigue sessions base walk_speed !! k
  = (fun s => (s, fatigue_session base walk_speed s)) <$> sessions !! k.
Proof.
  unfold calculate_distances_with_fatigue. change (map ?f ?l) with (f <$> l).
  apply list_lookup_fmap.
Qed.

(** Every session of the 21-session plan has a non-negative total run time. *)
Lemma extract_session_data_nonneg s :
  s ∈ extract_session_data -> (0 <= total_run_min s)%Q.
Proof.
  intros Hs. apply Qle_bool_iff.
  assert (Hall : forallb (fun s => Qle_bool 0 (total_run_min s)) extract_session_data = true)
    by (by vm_compute).
  eapply forallb_forall in Hall; [exact Hall |]. by apply list_elem_of_In.
Qed.

End Distances.

(** C4 (fatigue model, monotonicity): for a non-negative base speed, a longer
    single interval never gets a higher adjusted speed (km/h and m/min); so
    for a fixed non-negative total run time the run distance of a session with
    longer intervals is at most that of one with shorter intervals, in
    particular run_minutes = 5 against run_minutes = 0.5. *)
Theorem fatigue_speed_antitone (base walk_speed : Q) :
  (0 <= base)%Q ->
  (forall r1 r2 : Q,
     r1 <= r2 ->
     (get_adjusted_speed r2 base).1 <= (get_adjusted_speed r1 base).1
     /\ (get_adjusted_speed r2 base).2 <= (get_adjusted_speed r1 base).2)%Q
  /\ (forall s_short s_long : session_data,
        0 <= total_run_min s_long ->
        total_run_min s_long == total_run_min s_short ->
        run_min s_short <= run_min s_long ->
        run_distance_m (fatigue_session base walk_speed s_long).2
        <= run_distance_m (fatigue_session base walk_speed s_short).2)%Q
  /\ (forall s_short s_long : session_data,
        0 <= total_run_min s_long ->
        total_run_min s_long == total_run_min s_short ->
        run_min s_short == 0.5 -> run_min s_long == 5 ->
        run_distance_m (fatigue_session base walk_speed s_long).2
        <= run_distance_m (fatigue_session base walk_speed s_short).2)%Q.
Proof.
  intros Hbase.
  assert (Hdist : forall s_short s_long : session_data,
        (0 <= total_run_min s_long ->
         total_run_min s_long == total_run_min s_short ->
         run_min s_short <= run_min s_long ->
         run_distance_m (fatigue_session base walk_speed s_long).2
         <= run_distance_m (fatigue_session base walk_speed s_short).2)%Q).
  { intros s1 s2 Ht Heq Hr.
    rewrite !fatigue_run_distance, <- Heq.
    apply scale_le; [done | done |]. by apply reduction_factor_antitone. }
  split; [| split].
  - intros r1 r2 Hr. pose proof (reduction_factor_antitone r1 r2 Hr) as Hf.
    split.
    + unfold get_adjusted_speed. simpl.
      rewrite !(Qmult_comm base). by apply Qmult_le_compat_r.
    + rewrite !adjusted_speed_m_per_min.
      apply Qmult_le_compat_r; [| done].
      rewrite !(Qmult_comm base). by apply Qmult_le_compat_r.
  - exact Hdist.
  - intros s1 s2 Ht Heq H1 H2. apply Hdist; [done | done |].
    rewrite H1, H2. done.
Qed.

(** A witness of C4: session 5 of the plan (five-minute runs, 20 minutes in
    all) against forty half-minute runs, at the default 12 km/h. *)
Lemma fatigue_speed_antitone_witness :
  (0 <= 12)%Q
  /\ (run_distance_m (fatigue_session 12 100 (extract_session (make_session 5))).2
      <= run_distance_m (fatigue_session 12 100 half_minute_session).2)%Q.
Proof.
  assert (H0 : (0 <= 12)%Q) by (apply Qle_bool_iff; reflexivity).
  split; [exact H0 |].
  apply (proj2 (proj2 (fatigue_speed_antitone 12 100 H0))).
  - apply Qle_bool_iff; reflexivity.
  - reflexivity.
  - reflexivity.
  - reflexivity.
Defined.

(** C5 (constant speed against fatigue): with the same non-negative base
    speed in both models (the constant model takes it in m/min, the fatigue
    model in km/h), every session with run_minutes > 1.0 and a non-negative
    total run time gets a run distance from [calculate_distances] that is at
    least the one from [calculate_distances_with_fatigue]. *)
Theorem constant_speed_dominates_fatigue
  (sessions : list session_data) (base_run_speed_kmh run_speed_m_per_min walk_speed : Q)
  (k : nat) (s : session_data) (constant : distances) (fatigue : Q * Q * distances) :
  (0 <= base_run_speed_kmh)%Q ->
  (run_speed_m_per_min == base_run_speed_kmh * 1000 / 60)%Q ->
  calculate_distances sessions run_speed_m_per_min walk_speed !! k = Some (s, constant) ->
  calculate_distances_with_fatigue sessions base_run_speed_kmh walk_speed !! k
    = Some (s, fatigue) ->
  (0 <= total_run_min s)%Q ->
  (1.0 < run_min s)%Q ->
  (run_distance_m fatigue.2 <= run_distance_m constant)%Q.
Proof.
  intros Hbase Hspeed Hc Hf Ht Hr.
  rewrite lookup_calculate_distances in Hc.
  rewrite lookup_calculate_distances_with_fatigue in Hf.
  destruct (sessions !! k) as [s' |]; [| discriminate].
  simpl in Hc, Hf. injection Hc as -> <-. injection Hf as <-.
  rewrite fatigue_run_distance, (constant_run_distance _ _ _ _ Hspeed).
  apply scale_le; [done | done |].
  pose proof (reduction_factor_above_one _ Hr). lra.
Qed.

(** A witness of C5: session 6 of the plan (8-minute runs) at the default
    speeds, 12 km/h = 200 m/min. *)
Lemma constant_speed_dominates_fatigue_witness :
  (0 <= default_base_run_speed_kmh)%Q
  /\ (default_run_speed_m_per_min == default_base_run_speed_kmh * 1000 / 60)%Q
  /\ (1.0 < run_min (extract_session (make_session 6)))%Q
  /\ (run_distance_m
        (fatigue_session default_base_run_speed_kmh default_walk_speed_m_per_min
           (extract_session (make_session 6))).2
      <= run_distance_m
           (distances_at (extract_session (make_session 6))
              default_run_speed_m_per_min default_walk_speed_m_per_min))%Q.
Proof.
  assert (H0 : (0 <= default_base_run_speed_kmh)%Q)
    by (apply Qle_bool_iff; reflexivity).
  assert (H1 : (default_run_speed_m_per_min
                == default_base_run_speed_kmh * 1000 / 60)%Q) by reflexivity.
  assert (H2 : (1.0 < run_min (extract_session (make_session 6)))%Q)
    by reflexivity.
  split; [exact H0 |]. split; [exact H1 |]. split; [exact H2 |].
  apply (constant_speed_dominates_fatigue extract_session_data
           default_base_run_speed_kmh default_run_speed_m_per_min
           default_walk_speed_m_per_min 5 (extract_session (make_session 6))
           _ _ H0 H1).
  - reflexivity.
  - reflexivity.
  - apply Qle_bool_iff; reflexivity.
  - exact H2.
Defined.

(** * The log store *)

Section LogStore.

Lemma load_logs_stored logs : load_logs (File (Ok logs)) = Ok logs.
Proof. reflexivity. Qed.

(** What the handler does absorb: a missing file, an [IOError] and a text
    the JSON parser rejects all give the empty mapping. *)
Lemma load_logs_absorbed (self : log_file) :
  absent self \/ unreadable self \/ rejected_by_parser self ->
  load_logs self = Ok ∅.
Proof.
  intros [-> | [(e & He & ->) | ->]]; [reflexivity | | reflexivity].
  unfold load_logs. simpl. rewrite He. by rewrite orb_true_r.
Qed.

End LogStore.

(** C9 at a log file whose bytes are not text in the file's encoding: the
    content is malformed, [json.load] raises [UnicodeDecodeError] while it
    reads, the handler of [load_logs] names [JSONDecodeError] and [IOError]
    only, and the exception leaves [load_logs] where the empty mapping is
    promised. *)
Theorem load_logs_undecodable_escapes :
  malformed (File (Raise UnicodeDecodeError))
  /\ load_logs (File (Raise UnicodeDecodeError)) = Raise UnicodeDecodeError
  /\ ~ load_logs_as_stated.
Proof.
  assert (Hm : malformed (File (Raise UnicodeDecodeError))) by (by right).
  split; [exact Hm |]. split; [reflexivity |].
  intros H. specialize (H _ (or_intror (or_intror Hm))). discriminate H.
Qed.

(** * Plan adjustments *)

Section Adjust.

(** The branch [elif recovery >= 9] comes after [elif recovery > 8]: no
    recovery value reaches it. *)
Lemma recovery_suggestions_cases data :
  recovery_suggestions data = []
  \/ recovery_suggestions data = [add_rest]
  \/ recovery_suggestions data = [easier_pace]
  \/ recovery_suggestions data = [maintain_intensity].
Proof.
  unfold recovery_suggestions.
  destruct (get (recovery data)) as [r |]; [| by left].
  destruct (r <? 4) eqn:E4; [by right; left |].
  destruct (r <? 6) eqn:E6; [by right; right; left |].
  destruct (8 <? r) eqn:E8; [by right; right; right |].
  destruct (9 <=? r) eqn:E9; [lia | by left].
Qed.

Lemma increase_intensity_never_suggested logs week data :
  increase_intensity ∉ suggestions logs week data.
Proof.
  unfold suggestions. rewrite !elem_of_app. intros [H | [H | H]].
  - destruct (skipped_flag data); [| by apply elem_of_nil in H].
    apply list_elem_of_singleton in H. discriminate.
  - destruct (recovery_suggestions_cases data) as [E | [E | [E | E]]];
      rewrite E in H; [by apply elem_of_nil in H | ..];
      apply list_elem_of_singleton in H; discriminate.
  - unfold pace_suggestions in H.
    repeat match type of H with
    | _ ∈ (if ?c then _ else _) => destruct c
    | _ ∈ (match ?o with _ => _ end) => destruct o
    | _ ∈ [] => by apply elem_of_nil in H
    | _ ∈ [_] => apply list_elem_of_singleton in H; discriminate
    end.
Qed.

End Adjust.

(** C6 at a week logged with recovery 9: the entry for week 2 is the advice
    to maintain the current intensity; the advice to increase it is not in
    the text. *)
Theorem adjust_plan_recovery_9 :
  exists text,
    adjust_plan (File (Ok logs_recovery_9)) = Ok {[ 2 := text ]}
    /\ text = maintain_intensity
    /\ text_includes "slightly increasing intensity" text = false
    /\ text_includes "extra workout" text = false.
Proof. exists maintain_intensity. by vm_compute. Qed.

(** * Race-time prediction *)

Section Predict.

Context {A : Type}.
Implicit Types (x y : Z * A) (xs : list (Z * A)).

Lemma max_by_week_cons x y xs :
  max_by_week x (y :: xs) = max_by_week (if x.1 <? y.1 then y else x) xs.
Proof. reflexivity. Qed.

(** [max] returns an element of the list, and no element has a greater key. *)
Lemma max_by_week_spec x xs :
  max_by_week x xs ∈ x :: xs
  /\ forall y, y ∈ x :: xs -> y.1 <= (max_by_week x xs).1.
Proof.
  revert x. induction xs as [| z xs IH]; intros x.
  - split; [apply list_elem_of_here |].
    intros y ->%list_elem_of_singleton. simpl. lia.
  - rewrite max_by_week_cons.
    destruct (IH (if x.1 <? z.1 then z else x)) as [Hin Hmax].
    split.
    + apply elem_of_cons in Hin as [-> | Hin].
      * destruct (x.1 <? z.1); [apply list_elem_of_further |]; apply list_elem_of_here.
      * by do 2 apply list_elem_of_further.
    + intros y Hy.
      assert (Hbest : x.1 <= (if x.1 <? z.1 then z else x).1
                      /\ z.1 <= (if x.1 <? z.1 then z else x).1).
      { destruct (x.1 <? z.1) eqn:E; lia. }
      pose proof (Hmax _ (list_elem_of_here _ _)) as Hb.
      apply elem_of_cons in Hy as [-> | Hy]; [lia |].
      apply elem_of_cons in Hy as [-> | Hy]; [lia |].
      apply Hmax. by apply list_elem_of_further.
Qed.

End Predict.

Section PredictLogs.

Implicit Types (logs : logs_t) (d : weekly_log).

Lemma elem_of_weeks_with_pace logs w d :
  (w, d) ∈ weeks_with_pace logs <-> logs !! w = Some d /\ is_Some (get (pace d)).
Proof.
  unfold weeks_with_pace. rewrite list_elem_of_filter, elem_of_map_to_list.
  simpl. tauto.
Qed.

Lemma weeks_with_pace_nil logs :
  (forall w d, logs !! w = Some d -> get (pace d) = None) ->
  weeks_with_pace logs = [].
Proof.
  intros Hno. destruct (weeks_with_pace logs) as [| [w d] l] eqn:E; [done |].
  assert (Hin : (w, d) ∈ weeks_with_pace logs) by (rewrite E; apply list_elem_of_here).
  apply elem_of_weeks_with_pace in Hin as [Hw [p Hp]].
  rewrite (Hno _ _ Hw) in Hp. discriminate.
Qed.

(** The week [max] picks is the highest-numbered week with a pace. *)
Lemma predict_latest_at logs w d p :
  latest_with_pace logs w d p ->
  predict_latest logs = Some (predict w d p).
Proof.
  intros (Hw & Hp & Hmax). unfold predict_latest.
  assert (Hin : (w, d) ∈ weeks_with_pace logs).
  { apply elem_of_weeks_with_pace. by rewrite Hp. }
  destruct (weeks_with_pace logs) as [| x xs] eqn:E; [by apply elem_of_nil in Hin |].
  destruct (max_by_week_spec x xs) as [Hbest Hge].
  destruct (max_by_week x xs) as [w' d'].
  rewrite <- E in Hbest. apply elem_of_weeks_with_pace in Hbest as [Hw' Hp'].
  pose proof (Hge _ Hin) as Hle. simpl in Hle.
  pose proof (Hmax _ _ Hw' Hp') as Hle'.
  assert (w' = w) as -> by lia.
  assert (d' = d) as -> by congruence.
  by rewrite Hp.
Qed.

Lemma improvement_rate_stated d :
  recovery d ≠ Null -> improvement_rate d = Ok (stated_rate d).
Proof.
  unfold improvement_rate, stated_rate. destruct (recovery d) as [| | r]; [done | done |].
  intros _. simpl. by repeat case_match.
Qed.

End PredictLogs.

(** C10 (predict_5k without a pace): when no logged week has a pace,
    [predict_5k] raises nothing and returns a message: the not-enough-data
    message for an empty mapping, the no-pace-data message otherwise. *)
Theorem predict_5k_without_pace (logs : logs_t) :
  (forall w d, logs !! w = Some d -> get (pace d) = None) ->
  predict_5k (File (Ok logs))
  = Ok (if decide (logs = ∅) then not_enough_data else no_pace_data).
Proof.
  intros Hno. unfold predict_5k. rewrite load_logs_stored. simpl.
  destruct (decide (logs = ∅)); [done |].
  unfold predict_latest. by rewrite (weeks_with_pace_nil _ Hno).
Qed.

(** A witness of C10: week 1 logged with a distance and a recovery only. *)
Lemma predict_5k_without_pace_witness :
  logs_no_pace ≠ ∅
  /\ (forall w d, logs_no_pace !! w = Some d -> get (pace d) = None)
  /\ predict_5k (File (Ok logs_no_pace)) = Ok no_pace_data.
Proof.
  assert (Hne : logs_no_pace ≠ ∅) by (by vm_compute).
  assert (Hno : forall w d, logs_no_pace !! w = Some d -> get (pace d) = None).
  { unfold logs_no_pace. intros w d [_ <-]%lookup_singleton_Some. reflexivity. }
  split; [exact Hne |]. split; [exact Hno |].
  exact (predict_5k_without_pace logs_no_pace Hno).
Defined.

(** C7, as stated, fails after week 7: for a pace logged in week 8 the
    exponent is [max(0, 7 - 8) = 0], the computed time stays at the current
    estimate of 30 minutes, where [(1 - rate)^(7 - 8)] would raise it. *)
Lemma predict_5k_after_week_7 : ~ predict_5k_as_stated logs_week_8.
Proof.
  intros H.
  destruct (H 8 (week_entry (Some 6.0%Q) None (Some 7) false "" "2025-02-24 08:00:00")
              6.0%Q) as (pr & Hpr & _ & _ & Hproj).
  { split; [reflexivity |]. split; [reflexivity |].
    unfold logs_week_8. intros w' d' [<- _]%lookup_singleton_Some _. lia. }
  vm_compute in Hpr. injection Hpr as <-.
  vm_compute in Hproj. discriminate.
Qed.

(** The slip next to it: a week logged with a pace and no recovery stores
    [null], which [latest_data.get("recovery", 5)] returns as [None]; the
    comparison with 8 raises. *)
Example predict_5k_null_recovery_raises :
  predict_5k (File (Ok logs_pace_only)) = Raise TypeError.
Proof. by vm_compute. Qed.

(** C7 (amended): when week w with pace p is the highest-numbered week with
    a pace, and its recovery is a number or the key is missing, [predict_5k]
    reports week w and the current estimate p * 5; the projected time is
    p * 5 * (1 - rate)^max(0, 7 - w), reported with the improvement and the
    7 - w weeks remaining when w < 7 and replaced by the completion line
    otherwise; rate is 0.03 for a recovery >= 8, 0.015 for a recovery <= 4 and
    0.025 otherwise, also without a recovery key. *)
Theorem predict_5k_latest_week (logs : logs_t) (w : Z) (d : weekly_log) (p : Q) :
  latest_with_pace logs w d p ->
  recovery d ≠ Null ->
  let rate := stated_rate d in
  let current := (p * 5)%Q in
  let projected_time := (current * Qpower (1 - rate) (Z.max 0 (7 - w)))%Q in
  predict_latest logs
  = Some (Ok {| latest_week := w;
                current_5k_estimate := current;
                weeks_remaining := Z.max 0 (7 - w);
                weekly_improvement := rate;
                projected_5k_time := projected_time |})
  /\ predict_5k (File (Ok logs))
     = Ok (if w <? 7
           then projected w current projected_time (current - projected_time)%Q (7 - w)
           else completed w current).
Proof.
  intros Hlatest Hrec rate current projected_time.
  assert (Hlat : predict_latest logs
                 = Some (Ok {| latest_week := w;
                               current_5k_estimate := current;
                               weeks_remaining := Z.max 0 (7 - w);
                               weekly_improvement := rate;
                               projected_5k_time := projected_time |})).
  { rewrite (predict_latest_at _ _ _ _ Hlatest). unfold predict.
    by rewrite (improvement_rate_stated _ Hrec). }
  split; [exact Hlat |].
  unfold predict_5k. rewrite load_logs_stored. simpl.
  destruct (decide (logs = ∅)) as [-> | _].
  { destruct Hlatest as [Hw _]. by rewrite lookup_empty in Hw. }
  rewrite Hlat. simpl. unfold format_prediction. simpl.
  destruct (w <? 7) eqn:E.
  - rewrite Z.max_r by lia.
    destruct (0 <? 7 - w) eqn:E'; [done | lia].
  - destruct (0 <? Z.max 0 (7 - w)) eqn:E'; [lia | done].
Qed.

(** A witness of C7: week 2 logged with pace 6.0 and recovery 7; 30 minutes
    now, five weeks at 2.5% to go. *)
Lemma predict_5k_latest_week_witness :
  latest_with_pace logs_week_2 2
    (week_entry (Some 6.0%Q) None (Some 7) false "" "2025-01-13 08:00:00") 6.0%Q
  /\ predict_5k (File (Ok logs_week_2))
     = Ok (projected 2 (6.0 * 5)%Q
             (6.0 * 5 * Qpower (1 - 0.025) 5)%Q
             (6.0 * 5 - 6.0 * 5 * Qpower (1 - 0.025) 5)%Q 5).
Proof.
  assert (H : latest_with_pace logs_week_2 2
                (week_entry (Some 6.0%Q) None (Some 7) false "" "2025-01-13 08:00:00")
                6.0%Q).
  { split; [reflexivity |]. split; [reflexivity |].
    unfold logs_week_2. intros w' d' [<- _]%lookup_singleton_Some _. lia. }
  split; [exact H |].
  exact (proj2 (predict_5k_latest_week logs_week_2 2 _ 6.0%Q H ltac:(discriminate))).
Defined.

(** * More on session expansion *)

Section Expansion.

(** The taper formula is at its floor from session 22 on. *)
Lemma later_weeks_beyond i :
  max_sessions < i -> later_weeks i ((i - 1) / 3 + 1) = 3.
Proof.
  change max_sessions with 21. intros Hi. unfold later_weeks.
  assert (Hw : 8 <= (i - 1) / 3 + 1).
  { pose proof (Z.div_le_mono 21 (i - 1) 3 ltac:(lia) ltac:(lia)) as H.
    change (21 / 3) with 7 in H. lia. }
  destruct ((i - 1) / 3 + 1 =? 5) eqn:E5; [lia |].
  destruct ((i - 1) / 3 + 1 =? 6) eqn:E6; [lia |].
  apply Z.max_l. unfold int_of_float. simpl.
  Z.to_euclidean_division_equations. lia.
Qed.

Lemma compute_sets_beyond i :
  max_sessions < i -> compute_sets i 10.0 ((i - 1) / 3 + 1) = 3.
Proof.
  intros Hi. pose proof Hi as Hi'. change max_sessions with 21 in Hi'.
  unfold compute_sets.
  change (Qeq_bool 10.0 0) with false. cbv iota.
  destruct (i <=? max_sessions) eqn:E; [lia |]. simpl.
  destruct (custom_sets_outside i ltac:(lia)) as [_ ->].
  rewrite later_weeks_beyond by done.
  destruct ((i - 1) / 3 + 1 =? 4); [| done].
  destruct (i =? 10) eqn:E10; [lia |].
  destruct (i =? 11) eqn:E11; [lia |].
  destruct (i =? 12) eqn:E12; [lia | done].
Qed.

Lemma session_plan_beyond i :
  max_sessions < i ->
  session_plan i
  = if i mod 2 =? 1 then (10.0%Q, 3.0%Q, 3, long_intervals)
    else (inject_Z (20 + (i - max_sessions) * 2), 0%Q, 1, continuous_with_breaks).
Proof.
  intros Hi. unfold session_plan.
  destruct (max_sessions <? i) eqn:E; [| lia].
  by rewrite compute_sets_beyond.
Qed.

(** What [make_session] stores, in terms of [session_plan]. *)
Lemma make_session_fields i :
  let r := make_session i in
  run_minutes r = (session_plan i).1.1.1
  /\ walk_minutes r = (session_plan i).1.1.2
  /\ sets r = (session_plan i).1.2
  /\ workout r = (session_plan i).2.
Proof. unfold make_session. by destruct (session_plan i) as [[[? ?] ?] ?]. Qed.

(** A check on [session_plan] that holds on the 21 rows of the table and on
    both shapes of the sessions beyond it holds for every session. *)
Lemma session_plan_all (P : Q * Q * Z * workout_type -> bool) :
  forallb (fun n => P (session_plan n)) (range 1 22) = true ->
  P (10.0%Q, 3.0%Q, 3, long_intervals) = true ->
  (forall n, 22 <= n -> P (inject_Z (20 + (n - max_sessions) * 2), 0%Q, 1,
                           continuous_with_breaks) = true) ->
  forall i, 1 <= i -> P (session_plan i) = true.
Proof.
  intros Htable Hodd Heven i Hi.
  destruct (decide (i <= 21)) as [Hle | Hgt].
  - apply (forallb_range (fun n => P (session_plan n)) 1 22); [done | lia].
  - rewrite session_plan_beyond by (change max_sessions with 21; lia).
    destruct (i mod 2 =? 1); [done | apply Heven; lia].
Qed.

End Expansion.

(** X1 (generate_detailed_sessions is restartable): the sessions do not
    depend on how many are asked for; the list for a smaller count is the
    beginning of the list for a larger one. *)
Theorem generate_detailed_sessions_prefix (n m : Z) :
  n <= m ->
  take (Z.to_nat n) (generate_detailed_sessions m) = generate_detailed_sessions n.
Proof.
  intros Hnm. unfold generate_detailed_sessions, range.
  change (map ?f ?l) with (f <$> l).
  rewrite <- !fmap_take, take_seq. do 3 f_equal. lia.
Qed.

Lemma generate_detailed_sessions_prefix_witness :
  12 <= 21
  /\ take 12 (generate_detailed_sessions 21) = generate_detailed_sessions 12.
Proof.
  split; [lia |]. exact (generate_detailed_sessions_prefix 12 21 ltac:(lia)).
Defined.

(** X2 (every session is a real workout): whatever the count, every record
    has at least one set and a strictly positive run time. *)
Theorem generate_detailed_sessions_positive (count : Z) :
  Forall (fun r => 1 <= sets r /\ (0 < run_minutes r)%Q)
    (generate_detailed_sessions count).
Proof.
  apply Forall_forall. intros r [i [Hi ->]]%generate_elem.
  destruct (make_session_fields i) as (-> & _ & -> & _).
  pose proof (session_plan_all
                (fun p => (1 <=? p.1.2) && Qltb 0 p.1.1.1)) as H.
  cbv beta in H.
  assert (Hp : (1 <=? (session_plan i).1.2) && Qltb 0 (session_plan i).1.1.1 = true).
  { apply H; [by vm_compute | by vm_compute | | lia].
    intros n Hn. simpl. apply Qltb_lt.
    change max_sessions with 21. unfold Qlt. simpl. lia. }
  apply andb_true_iff in Hp as [H1 H2].
  split; [lia | by apply Qltb_lt].
Qed.


(** A session without a walk segment is a single continuous run. *)
Lemma make_session_continuous i :
  1 <= i ->
  let r := make_session i in
  ((walk_minutes r == 0)%Q <-> is_continuous (workout r) = true)
  /\ ((walk_minutes r == 0)%Q ->
      sets r = 1
      /\ (total_run_time r == run_minutes r)%Q
      /\ (total_workout_time r == run_minutes r)%Q).
Proof.
  intros Hi r. subst r.
  destruct (totals_make_session i) as [Hrun Hwork]. simpl in Hrun, Hwork.
  rewrite Hrun, Hwork.
  destruct (make_session_fields i) as (-> & -> & -> & ->).
  pose proof (session_plan_all
                (fun p => if Qeq_bool p.1.1.2 0
                          then is_continuous p.2 && (p.1.2 =? 1)
                          else negb (is_continuous p.2))) as H.
  cbv beta in H.
  specialize (H ltac:(by vm_compute) ltac:(by vm_compute)
                ltac:(by intros; vm_compute) i ltac:(lia)).
  destruct (session_plan i) as [[[run walk] n] wt]. simpl in *.
  destruct (Qeq_bool walk 0) eqn:E.
  - apply Qeq_bool_iff in E. apply andb_true_iff in H as [Hc Hn].
    split; [by split |]. intros _.
    assert (n = 1) as -> by lia.
    rewrite (Qltb_zero_eq _ E). split; [done |]. split; [| done].
    simpl. ring.
  - assert (Hne : ~ (walk == 0)%Q).
    { intros Hw. apply Qeq_bool_iff in Hw. congruence. }
    apply negb_true_iff in H. split; [| done].
    split; [done | congruence].
Qed.

(** X3 (continuous sessions): in every generated list a record has no walk
    segment exactly when its workout type is continuous_run or
    continuous_with_breaks, and then it has a single set and its total
    workout time, total run time and run minutes coincide. *)
Theorem generate_detailed_sessions_continuous (count : Z) :
  Forall (fun r =>
    ((walk_minutes r == 0)%Q <-> is_continuous (workout r) = true)
    /\ ((walk_minutes r == 0)%Q ->
        sets r = 1
        /\ (total_run_time r == run_minutes r)%Q
        /\ (total_workout_time r == run_minutes r)%Q))
    (generate_detailed_sessions count).
Proof.
  apply Forall_forall. intros r [i [Hi ->]]%generate_elem.
  apply make_session_continuous. lia.
Qed.

(** X4 (sessions beyond the table): from session 22 on, an odd session is
    10.0 min run / 3.0 min walk x 3 of type long_intervals (30 minutes of
    running, 39 in all), and an even session is one continuous run of
    2 * session - 22 minutes of type continuous_with_breaks. *)
Theorem generate_detailed_sessions_beyond_table (count : Z) :
  Forall (fun r =>
    21 < session r ->
    if session r mod 2 =? 1 then
      (run_minutes r == 10)%Q /\ (walk_minutes r == 3)%Q /\ sets r = 3
      /\ workout r = long_intervals
      /\ (total_run_time r == 30)%Q /\ (total_workout_time r == 39)%Q
    else
      (run_minutes r == inject_Z (2 * session r - 22))%Q
      /\ (walk_minutes r == 0)%Q /\ sets r = 1
      /\ workout r = continuous_with_breaks
      /\ (total_run_time r == run_minutes r)%Q
      /\ (total_workout_time r == run_minutes r)%Q)
    (generate_detailed_sessions count).
Proof.
  apply Forall_forall. intros r [i [Hi ->]]%generate_elem.
  rewrite session_make_session. intros Hgt.
  destruct (totals_make_session i) as [Hrun Hwork]. simpl in Hrun, Hwork.
  rewrite Hrun, Hwork.
  destruct (make_session_fields i) as (-> & -> & -> & ->).
  rewrite session_plan_beyond by done.
  destruct (i mod 2 =? 1); simpl.
  - repeat split; reflexivity.
  - change max_sessions with 21.
    repeat split; try reflexivity.
    + unfold Qeq. simpl. lia.
    + ring.
Qed.

(** X5 (time accounting): for every generated record, the entry
    [extract_session_data] derives from it has a total session time equal to
    its total run time plus its total walk time. *)
Theorem extract_session_time_accounting (count : Z) :
  Forall (fun r =>
    (total_session_min (extract_session r)
     == total_run_min (extract_session r) + total_walk_min (extract_session r))%Q)
    (generate_detailed_sessions count).
Proof.
  apply Forall_forall. intros r [i [Hi ->]]%generate_elem.
  destruct (make_session_continuous i ltac:(lia)) as [_ Hc].
  destruct (totals_make_session i) as [Hrun Hwork].
  destruct (walk_nonneg i ltac:(lia)) as [Hz | Hpos].
  - destruct (Hc Hz) as (_ & Hr & Hw).
    unfold extract_session. simpl.
    rewrite (Qltb_zero_eq _ Hz), Hr, Hw. ring.
  - unfold extract_session. simpl.
    rewrite Hrun, Hwork. apply Qltb_lt in Hpos. rewrite Hpos. ring.
Qed.

(** X6 (heart-rate zones): the run zone of a generated record is
    140-160 bpm on Tuesdays and 130-150 bpm on Mondays and Thursdays; the
    walk zone is always 100-120 bpm. *)
Theorem generate_detailed_sessions_hr_zones (count : Z) :
  Forall (fun r =>
    hr_run (target_hr_zones r)
    = (if String.eqb (day_name r) "Tue" then "140-160 bpm" else "130-150 bpm")%string
    /\ hr_walk (target_hr_zones r) = "100-120 bpm"%string)
    (generate_detailed_sessions count).
Proof.
  apply Forall_forall. intros r [i [Hi ->]]%generate_elem.
  unfold make_session. destruct (session_plan i) as [[[? ?] ?] ?]. simpl.
  split; [| done].
  replace ((i - 1) mod 3 + 1 - 1) with ((i - 1) mod 3) by lia.
  destruct (slot_cases i) as [E | [E | E]]; rewrite E; reflexivity.
Qed.

(** * The two set-count rules *)

Section SetCounts.

Lemma custom_sets_inside i :
  1 <= i <= 9 ->
  (exists n, Init.custom_sets !! i = Some n /\ 1 <= n)
  /\ (exists n, Detailed.custom_sets !! i = Some n /\ 1 <= n).
Proof.
  intros Hi.
  pose proof (forallb_range
                (fun i => match Init.custom_sets !! i, Detailed.custom_sets !! i with
                          | Some n, Some n' => (1 <=? n) && (1 <=? n')
                          | _, _ => false
                          end) 1 10 i ltac:(by vm_compute) ltac:(lia)) as H.
  cbv beta in H.
  destruct (Init.custom_sets !! i) as [n |]; [| done].
  destruct (Detailed.custom_sets !! i) as [n' |]; [| done].
  apply andb_true_iff in H as [H1 H2].
  split; eexists; (split; [done | lia]).
Qed.

Lemma Qeq_bool_false x y : Qeq_bool x y = false <-> ~ (x == y)%Q.
Proof.
  rewrite <- Qeq_bool_iff. destruct (Qeq_bool x y); split; done.
Qed.

End SetCounts.

(** X7 (set-count rules, totality): the rule of [__init__] falls off its end,
    returning no value, exactly for a session of week 4 with a non-zero run
    time and an index outside 1..12; every value it does return is at least 1.
    The rule of [generate_detailed_sessions] returns at least 1 for every
    session index from 1 on, whatever the run time and the week. *)
Theorem compute_sets_defined (session_idx : Z) (run_min : Q) (week : Z) :
  (Init.compute_sets session_idx run_min week = None
   <-> ~ (run_min == 0)%Q /\ week = 4 /\ ~ 1 <= session_idx <= 12)
  /\ (forall n, Init.compute_sets session_idx run_min week = Some n -> 1 <= n)
  /\ (1 <= session_idx -> 1 <= Detailed.compute_sets session_idx run_min week).
Proof.
  unfold Init.compute_sets, Detailed.compute_sets, later_weeks.
  destruct (Qeq_bool run_min 0) eqn:Erun.
  { apply Qeq_bool_iff in Erun. split; [| split].
    - split; [done | by intros [? _]].
    - intros n [= <-]. lia.
    - intros _. lia. }
  apply Qeq_bool_false in Erun.
  assert (Hdet : forall b : bool, 1 <= (if b then 1 else
      match Detailed.custom_sets !! session_idx with
      | Some n => n
      | None =>
        if week =? 4 then
          if session_idx =? 10 then 6
          else if session_idx =? 11 then 1
          else if session_idx =? 12 then 5
          else if week =? 5 then Z.max 6 (int_of_float (8 - inject_Z (session_idx - 13) * 0.5)%Q)
          else if week =? 6 then Z.max 5 (int_of_float (7 - inject_Z (session_idx - 16) * 0.5)%Q)
          else Z.max 3 (int_of_float (5 - inject_Z (session_idx - 19) * 0.5)%Q)
        else if week =? 5 then Z.max 6 (int_of_float (8 - inject_Z (session_idx - 13) * 0.5)%Q)
        else if week =? 6 then Z.max 5 (int_of_float (7 - inject_Z (session_idx - 16) * 0.5)%Q)
        else Z.max 3 (int_of_float (5 - inject_Z (session_idx - 19) * 0.5)%Q)
      end)).
  { intros [|]; [lia |].
    destruct (decide (1 <= session_idx <= 9)) as [Hin | Hout].
    - destruct (custom_sets_inside _ Hin) as [_ (n & -> & Hn)]. done.
    - destruct (custom_sets_outside _ Hout) as [_ ->].
      repeat case_match; lia. }
  split; [| split]; [| | intros _; apply Hdet].
  - destruct (decide (1 <= session_idx <= 9)) as [Hin | Hout].
    + destruct (custom_sets_inside _ Hin) as [(n & -> & Hn) _].
      split; [done | intros (_ & _ & H); lia].
    + destruct (custom_sets_outside _ Hout) as [-> _].
      repeat case_match;
        (split; [intros Hn; try done; repeat split; try done; lia
                | intros (_ & ? & ?); try done; lia]).
  - intros n.
    destruct (decide (1 <= session_idx <= 9)) as [Hin | Hout].
    + destruct (custom_sets_inside _ Hin) as [(n' & -> & Hn) _]. by intros [= <-].
    + destruct (custom_sets_outside _ Hout) as [-> _].
      repeat case_match; intros [= <-]; lia.
Qed.

(** X8 (set-count rules, agreement): from session 10 on, for a session with a
    non-zero run time that is not a continuous run of the table, the rule of
    [__init__] and the rule of [generate_detailed_sessions] return the same
    count for the week the session falls in. *)
Theorem compute_sets_agree_from_week_4 (session_idx : Z) (run_min : Q) :
  10 <= session_idx ->
  ~ (run_min == 0)%Q ->
  (session_idx <= max_sessions ->
   ~ ((index (0, 0)%Q interval_progress (session_idx - 1)).2 == 0)%Q) ->
  Init.compute_sets session_idx run_min ((session_idx - 1) / 3 + 1)
  = Some (Detailed.compute_sets session_idx run_min ((session_idx - 1) / 3 + 1)).
Proof.
  intros Hidx Hrun Hwalk.
  unfold Init.compute_sets, Detailed.compute_sets, later_weeks.
  apply Qeq_bool_false in Hrun. rewrite Hrun.
  assert (Hc : (session_idx <=? max_sessions)
               && Qeq_bool (index (0, 0)%Q interval_progress (session_idx - 1)).2 0
               = false).
  { destruct (session_idx <=? max_sessions) eqn:E; [| done].
    simpl. apply Qeq_bool_false, Hwalk. lia. }
  rewrite Hc.
  destruct (custom_sets_outside session_idx ltac:(lia)) as [-> ->].
  destruct ((session_idx - 1) / 3 + 1 =? 4) eqn:E4.
  - assert (session_idx <= 12) by (Z.to_euclidean_division_equations; lia).
    repeat case_match; try done; lia.
  - repeat case_match; done.
Qed.

Lemma compute_sets_agree_from_week_4_witness :
  Init.compute_sets 15 8.0 5 = Some (Detailed.compute_sets 15 8.0 5)
  /\ Detailed.compute_sets 15 8.0 5 = 7.
Proof.
  split; [| reflexivity].
  apply (compute_sets_agree_from_week_4 15 8.0%Q).
  - lia.
  - discriminate.
  - intros _. discriminate.
Defined.

(** * Writing and reading the log *)

Section Logging.

Implicit Types (logs : logs_t) (self : log_file).

Lemma max_list_spec x xs :
  max_list x xs ∈ x :: xs /\ forall y, y ∈ x :: xs -> y <= max_list x xs.
Proof.
  revert x. induction xs as [| z xs IH]; intros x.
  - split; [apply list_elem_of_here |].
    intros y ->%list_elem_of_singleton. reflexivity.
  - change (max_list x (z :: xs)) with (max_list (Z.max x z) xs).
    destruct (IH (Z.max x z)) as [Hin Hmax]. split.
    + apply elem_of_cons in Hin as [-> | Hin].
      * destruct (Z.max_spec x z) as [[_ ->] | [_ ->]];
          [apply list_elem_of_further |]; apply list_elem_of_here.
      * by do 2 apply list_elem_of_further.
    + intros y Hy.
      pose proof (Hmax _ (list_elem_of_here _ _)) as Hb.
      apply elem_of_cons in Hy as [-> | Hy]; [lia |].
      apply elem_of_cons in Hy as [-> | Hy]; [lia |].
      apply Hmax. by apply list_elem_of_further.
Qed.

Lemma elem_of_keys logs w : w ∈ (map_to_list logs).*1 <-> is_Some (logs !! w).
Proof.
  rewrite list_elem_of_fmap. split.
  - intros ([w' d] & -> & Hin). apply elem_of_map_to_list in Hin. by exists d.
  - intros [d Hd]. exists (w, d). split; [done |]. by apply elem_of_map_to_list.
Qed.

(** The current week of a non-empty log is its latest logged week. *)
Lemma get_current_week_latest logs :
  logs ≠ ∅ ->
  exists w, get_current_week (File (Ok logs)) = Ok w /\ latest_logged logs w.
Proof.
  intros Hne. unfold get_current_week. rewrite load_logs_stored. simpl.
  destruct (decide (logs = ∅)); [done |].
  destruct ((map_to_list logs).*1) as [| w ws] eqn:E.
  - apply fmap_nil_inv, map_to_list_empty_iff in E. done.
  - exists (max_list w ws). split; [done |].
    destruct (max_list_spec w ws) as [Hin Hmax]. rewrite <- E in Hin, Hmax.
    split; [by apply elem_of_keys |].
    intros w' Hw'. by apply Hmax, elem_of_keys.
Qed.

Lemma latest_logged_unique logs w1 w2 :
  latest_logged logs w1 -> latest_logged logs w2 -> w1 = w2.
Proof.
  intros [H1 M1] [H2 M2]. pose proof (M1 _ H2). pose proof (M2 _ H1). lia.
Qed.

Lemma get_current_week_of self logs :
  load_logs self = Ok logs -> get_current_week self = get_current_week (File (Ok logs)).
Proof. intros H. unfold get_current_week. by rewrite H, load_logs_stored. Qed.

Lemma log_week_written self logs ts week pace distance recovery skipped comments :
  load_logs self = Ok logs ->
  log_week true ts self week pace distance recovery skipped comments
  = Ok (File (Ok (<[week := week_entry pace distance recovery skipped comments ts]> logs))).
Proof. intros H. unfold log_week. by rewrite H. Qed.

End Logging.

(** X9 (log_week, round trip): when the log loads and the write succeeds,
    [log_week] returns normally and a following [load_logs] finds the record
    just logged under its week, replacing any earlier record of that week,
    and every other week as it was. *)
Theorem log_week_then_load_logs (self : log_file) (logs : logs_t) (ts : string)
  (week : Z) (pace distance : option Q) (recovery : option Z)
  (skipped : bool) (comments : string) :
  load_logs self = Ok logs ->
  exists self' logs',
    log_week true ts self week pace distance recovery skipped comments = Ok self'
    /\ load_logs self' = Ok logs'
    /\ logs' !! week = Some (week_entry pace distance recovery skipped comments ts)
    /\ forall w, w ≠ week -> logs' !! w = logs !! w.
Proof.
  intros Hload. eexists _, _.
  split; [by apply log_week_written |].
  split; [apply load_logs_stored |].
  split; [apply lookup_insert_eq |].
  intros w Hw. by apply lookup_insert_ne.
Qed.

Lemma log_week_then_load_logs_witness :
  load_logs (File (Ok logs_week_2)) = Ok logs_week_2
  /\ exists self' logs',
       log_week true "2025-01-20 08:00:00" (File (Ok logs_week_2)) 3
         (Some 5.8%Q) None (Some 8) false "" = Ok self'
       /\ load_logs self' = Ok logs'
       /\ logs' !! 3
          = Some (week_entry (Some 5.8%Q) None (Some 8) false "" "2025-01-20 08:00:00")
       /\ forall w, w ≠ 3 -> logs' !! w = logs_week_2 !! w.
Proof.
  split; [reflexivity |].
  exact (log_week_then_load_logs (File (Ok logs_week_2)) logs_week_2
           "2025-01-20 08:00:00" 3 (Some 5.8%Q) None (Some 8) false "" eq_refl).
Defined.

(** X10 (log_week over a lost log): when the log file is absent, or cannot
    be opened or read ([IOError]), or holds a text the JSON parser rejects
    ([JSONDecodeError]), [log_week] does not fail, and after a successful
    write the file holds the new week and nothing else.  When the bytes of
    the file cannot be decoded ([UnicodeDecodeError]), [log_week] raises that
    error before it writes anything. *)
Theorem log_week_over_lost_log (self : log_file) (ts : string)
  (week : Z) (pace distance : option Q) (recovery : option Z)
  (skipped : bool) (comments : string) :
  (absent self \/ unreadable self \/ rejected_by_parser self ->
   exists self',
     log_week true ts self week pace distance recovery skipped comments = Ok self'
     /\ load_logs self'
        = Ok {[ week := week_entry pace distance recovery skipped comments ts ]})
  /\ (undecodable self ->
      forall writable,
        log_week writable ts self week pace distance recovery skipped comments
        = Raise UnicodeDecodeError).
Proof.
  split.
  - intros Hlost. pose proof (load_logs_absorbed self Hlost) as Hload.
    eexists. split; [by apply log_week_written |].
    rewrite load_logs_stored. by rewrite insert_empty.
  - by intros -> writable.
Qed.

(** X11 (get_current_week): when the log loads, the current week is 0 for an
    empty log and otherwise the highest logged week number, whatever weeks
    are missing below it. *)
Theorem get_current_week_is_latest (self : log_file) (logs : logs_t) :
  load_logs self = Ok logs ->
  exists w,
    get_current_week self = Ok w
    /\ (logs = ∅ -> w = 0)
    /\ (logs ≠ ∅ -> latest_logged logs w).
Proof.
  intros Hload. rewrite (get_current_week_of _ _ Hload).
  destruct (decide (logs = ∅)) as [-> | Hne].
  - exists 0. split; [done |]. split; [done | by intros []].
  - destruct (get_current_week_latest logs Hne) as (w & Hw & Hlatest).
    exists w. split; [done |]. split; [done | by intros _].
Qed.

Lemma get_current_week_is_latest_witness :
  load_logs (File (Ok logs_week_8)) = Ok logs_week_8
  /\ exists w,
       get_current_week (File (Ok logs_week_8)) = Ok w
       /\ (logs_week_8 = ∅ -> w = 0)
       /\ (logs_week_8 ≠ ∅ -> latest_logged logs_week_8 w).
Proof.
  split; [reflexivity |].
  exact (get_current_week_is_latest (File (Ok logs_week_8)) logs_week_8 eq_refl).
Defined.

(** X12 (get_current_week after log_week): logging a week moves the current
    week to the maximum of the previous current week and the logged week;
    on an empty log it becomes the logged week itself. *)
Theorem get_current_week_after_log_week (self : log_file) (logs : logs_t)
  (ts : string) (week : Z) (pace distance : option Q) (recovery : option Z)
  (skipped : bool) (comments : string) :
  load_logs self = Ok logs ->
  exists before self',
    get_current_week self = Ok before
    /\ log_week true ts self week pace distance recovery skipped comments = Ok self'
    /\ get_current_week self'
       = Ok (if decide (logs = ∅) then week else Z.max before week).
Proof.
  intros Hload.
  set (e := week_entry pace distance recovery skipped comments ts).
  assert (Hne' : <[week := e]> logs ≠ ∅) by apply insert_non_empty.
  destruct (get_current_week_latest _ Hne') as (after & Hafter & Hlatest).
  rewrite (get_current_week_of _ _ Hload).
  destruct (decide (logs = ∅)) as [-> | Hne].
  - exists 0, (File (Ok (<[week := e]> ∅))).
    split; [done |]. split; [by apply log_week_written |].
    rewrite Hafter. f_equal.
    apply (latest_logged_unique _ _ _ Hlatest).
    split; [by rewrite lookup_insert_eq |].
    intros w' [d Hd]. apply lookup_insert_Some in Hd as [[-> _] | [_ Hd]]; [lia |].
    by rewrite lookup_empty in Hd.
  - destruct (get_current_week_latest _ Hne) as (before & Hbefore & [Hkey Hmax]).
    exists before, (File (Ok (<[week := e]> logs))).
    split; [done |]. split; [by apply log_week_written |].
    rewrite Hafter. f_equal.
    apply (latest_logged_unique _ _ _ Hlatest). split.
    + destruct (Z.max_spec before week) as [[Hlt ->] | [Hle ->]].
      * by rewrite lookup_insert_eq.
      * destruct (decide (before = week)) as [-> | Hneq];
          [by rewrite lookup_insert_eq | by rewrite lookup_insert_ne].
    + intros w' [d Hd]. apply lookup_insert_Some in Hd as [[-> _] | [_ Hd]]; [lia |].
      pose proof (Hmax w' (ex_intro _ d Hd)). lia.
Qed.

Lemma get_current_week_after_log_week_witness :
  load_logs (File (Ok logs_week_2)) = Ok logs_week_2
  /\ exists before self',
       get_current_week (File (Ok logs_week_2)) = Ok before
       /\ log_week true "2025-01-06 08:00:00" (File (Ok logs_week_2)) 1
            (Some 6.0%Q) None (Some 7) false "" = Ok self'
       /\ get_current_week self'
          = Ok (if decide (logs_week_2 = ∅) then 1 else Z.max before 1).
Proof.
  split; [reflexivity |].
  exact (get_current_week_after_log_week (File (Ok logs_week_2)) logs_week_2
           "2025-01-06 08:00:00" 1 (Some 6.0%Q) None (Some 7) false "" eq_refl).
Defined.

(** * More on plan adjustments *)

Section Adjustments.

Implicit Types (logs : logs_t) (d : weekly_log).

(** The loop treats every logged week on its own. *)
Lemma adjust_fold_lookup logs (m : logs_t) k :
  map_fold (adjust_step logs) ∅ m !! k = m !! (k - 1) ≫= adjustment_for logs (k - 1).
Proof.
  revert k.
  apply (map_fold_weak_ind
           (fun r m => forall k, r !! k = m !! (k - 1) ≫= adjustment_for logs (k - 1))).
  - intros k. by rewrite !lookup_empty.
  - intros i x m' r Hfresh IH k.
    unfold adjust_step.
    destruct (decide (k - 1 = i)) as [<- | Hne].
    + rewrite lookup_insert_eq. simpl. unfold adjustment_for.
      specialize (IH k). rewrite Hfresh in IH. simpl in IH.
      destruct (7 <? k - 1 + 1); [done |].
      destruct (suggestions logs (k - 1) x); [done |].
      replace (k - 1 + 1) with k by lia. by rewrite lookup_insert_eq.
    + rewrite lookup_insert_ne by done. rewrite <- IH.
      destruct (7 <? i + 1); [done |].
      destruct (suggestions logs i x); [done |].
      rewrite lookup_insert_ne by lia. done.
Qed.

Lemma adjust_plan_lookup logs :
  exists m, adjust_plan (File (Ok logs)) = Ok m
            /\ forall k, m !! k = logs !! (k - 1) ≫= adjustment_for logs (k - 1).
Proof.
  eexists. split; [unfold adjust_plan; by rewrite load_logs_stored |].
  apply adjust_fold_lookup.
Qed.

Lemma adjust_plan_lookup_next logs w d :
  logs !! w = Some d ->
  exists m, adjust_plan (File (Ok logs)) = Ok m
            /\ m !! (w + 1) = adjustment_for logs w d.
Proof.
  intros Hw. destruct (adjust_plan_lookup logs) as (m & Hm & Hk).
  exists m. split; [done |]. rewrite Hk.
  replace (w + 1 - 1) with w by lia. by rewrite Hw.
Qed.

Lemma prefix_app s t : String.prefix s (s +:+ t) = true.
Proof.
  induction s as [| a s IH]; [by destruct t |]. simpl.
  destruct (Ascii.ascii_dec a a); [done | congruence].
Qed.

Lemma prefix_refl s : String.prefix s s = true.
Proof.
  induction s as [| a s IH]; [done |]. simpl.
  destruct (Ascii.ascii_dec a a); [done | congruence].
Qed.

Lemma text_includes_prefix needle text :
  String.prefix needle text = true -> text_includes needle text = true.
Proof. intros H. destruct text; simpl in *; by rewrite H. Qed.

Lemma text_includes_app_r needle s t :
  text_includes needle t = true -> text_includes needle (s +:+ t) = true.
Proof.
  intros H. induction s as [| a s IH]; [done |].
  simpl. rewrite IH. apply orb_true_r.
Qed.

Lemma prefix_join x sep rest : String.prefix x (join sep (x :: rest)) = true.
Proof.
  destruct rest; simpl; [apply prefix_refl | apply prefix_app].
Qed.

(** Every suggestion is readable in the joined text. *)
Lemma text_includes_join x sep xs :
  x ∈ xs -> text_includes x (join sep xs) = true.
Proof.
  induction xs as [| y rest IH]; [by intros ?%elem_of_nil |].
  intros [-> | Hin]%elem_of_cons.
  - apply text_includes_prefix, prefix_join.
  - specialize (IH Hin). destruct rest as [| z rest]; [by apply elem_of_nil in Hin |].
    change (join sep (y :: z :: rest)) with (y +:+ sep +:+ join sep (z :: rest)).
    by do 2 apply text_includes_app_r.
Qed.

Lemma adjustment_for_includes logs w d x :
  w + 1 <= 7 ->
  x ∈ suggestions logs w d ->
  exists text, adjustment_for logs w d = Some text
               /\ text = join " | " (suggestions logs w d)
               /\ text_includes x text = true.
Proof.
  intros Hw Hx. unfold adjustment_for.
  destruct (7 <? w + 1) eqn:E; [lia |].
  pose proof (text_includes_join x " | " _ Hx) as Hinc.
  destruct (suggestions logs w d) as [| y ys] eqn:Es; [by apply elem_of_nil in Hx |].
  eexists. split; [done |]. split; [done | exact Hinc].
Qed.

End Adjustments.

(** X13 (adjust_plan, entries): the mapping has an entry for week k exactly
    when k <= 7, week k - 1 is logged and that week gives at least one
    suggestion; the entry is the suggestions of week k - 1 joined by " | ". *)
Theorem adjust_plan_entries (logs : logs_t) :
  exists m,
    adjust_plan (File (Ok logs)) = Ok m
    /\ forall k text,
         m !! k = Some text
         <-> k <= 7
             /\ exists d, logs !! (k - 1) = Some d
                          /\ suggestions logs (k - 1) d ≠ []
                          /\ text = join " | " (suggestions logs (k - 1) d).
Proof.
  destruct (adjust_plan_lookup logs) as (m & Hm & Hk).
  exists m. split; [done |]. intros k text. rewrite Hk.
  unfold adjustment_for. split.
  - destruct (logs !! (k - 1)) as [d |] eqn:Ed; [| done]. simpl.
    destruct (7 <? k - 1 + 1) eqn:E; [done |].
    destruct (suggestions logs (k - 1) d) as [| y ys] eqn:Es; [done |].
    intros [= <-]. split; [lia |]. exists d. by rewrite Es.
  - intros (Hle & d & -> & Hne & ->). simpl.
    destruct (7 <? k - 1 + 1) eqn:E; [lia |].
    by destruct (suggestions logs (k - 1) d).
Qed.

(** X14 (adjust_plan, skipped week): when a logged week w <= 6 was skipped,
    the entry for week w + 1 exists and starts with the advice to reduce
    intensity. *)
Theorem adjust_plan_skipped (logs : logs_t) (w : Z) (d : weekly_log) :
  logs !! w = Some d ->
  w + 1 <= 7 ->
  skipped d = Val true ->
  exists m text,
    adjust_plan (File (Ok logs)) = Ok m
    /\ m !! (w + 1) = Some text
    /\ String.prefix reduce_intensity text = true.
Proof.
  intros Hw Hle Hs.
  destruct (adjust_plan_lookup_next logs w d Hw) as (m & Hm & Hnext).
  exists m. rewrite Hnext. unfold adjustment_for, suggestions, skipped_flag.
  rewrite Hs. destruct (7 <? w + 1) eqn:E; [lia |]. simpl.
  eexists. split; [done |]. split; [done |]. apply prefix_join.
Qed.

Lemma adjust_plan_skipped_witness :
  exists m text,
    adjust_plan
      (File (Ok {[ 1 := week_entry None None (Some 6) true "" "2025-01-06 08:00:00" ]}))
    = Ok m
    /\ m !! 2 = Some text
    /\ String.prefix reduce_intensity text = true.
Proof.
  exact (adjust_plan_skipped
           {[ 1 := week_entry None None (Some 6) true "" "2025-01-06 08:00:00" ]}
           1 (week_entry None None (Some 6) true "" "2025-01-06 08:00:00")
           eq_refl ltac:(lia) eq_refl).
Defined.

(** X15 (adjust_plan, recovery advice): for a logged week w <= 6 with a
    recovery below 6 or above 8, the entry for week w + 1 includes the advice
    of that recovery band: an extra rest day below 4, an easier pace for 4
    and 5, maintaining the current intensity above 8. *)
Theorem adjust_plan_recovery_advice (logs : logs_t) (w : Z) (d : weekly_log) (r : Z) :
  logs !! w = Some d ->
  w + 1 <= 7 ->
  recovery d = Val r ->
  r < 6 \/ 8 < r ->
  exists m text,
    adjust_plan (File (Ok logs)) = Ok m
    /\ m !! (w + 1) = Some text
    /\ text_includes (recovery_advice r) text = true.
Proof.
  intros Hw Hle Hr Hband.
  destruct (adjust_plan_lookup_next logs w d Hw) as (m & Hm & Hnext).
  destruct (adjustment_for_includes logs w d (recovery_advice r) Hle)
    as (text & Htext & _ & Hinc).
  { unfold suggestions. rewrite !elem_of_app. right; left.
    unfold recovery_suggestions, recovery_advice. rewrite Hr. simpl.
    destruct (r <? 4) eqn:E4; [apply list_elem_of_here |].
    destruct (r <? 6) eqn:E6; [apply list_elem_of_here |].
    destruct (8 <? r) eqn:E8; [apply list_elem_of_here | lia]. }
  exists m, text. by rewrite Hnext.
Qed.

Lemma adjust_plan_recovery_advice_witness :
  exists m text,
    adjust_plan
      (File (Ok {[ 1 := week_entry None None (Some 3) false "" "2025-01-06 08:00:00" ]}))
    = Ok m
    /\ m !! 2 = Some text
    /\ text_includes add_rest text = true.
Proof.
  exact (adjust_plan_recovery_advice
           {[ 1 := week_entry None None (Some 3) false "" "2025-01-06 08:00:00" ]}
           1 (week_entry None None (Some 3) false "" "2025-01-06 08:00:00") 3
           eq_refl ltac:(lia) eq_refl ltac:(lia)).
Defined.

(** X16 (adjust_plan, pace improvement): for a logged week w in 2..6 with a
    non-zero pace, when week w - 1 is logged with a non-zero pace too and the
    pace of week w is below it, the entry for week w + 1 includes the praise
    for the pace improvement. *)
Theorem adjust_plan_pace_improvement
  (logs : logs_t) (w : Z) (d d' : weekly_log) (p pp : Q) :
  logs !! w = Some d ->
  logs !! (w - 1) = Some d' ->
  1 < w -> w + 1 <= 7 ->
  pace d = Val p -> ~ (p == 0)%Q ->
  pace d' = Val pp -> ~ (pp == 0)%Q ->
  (p < pp)%Q ->
  exists m text,
    adjust_plan (File (Ok logs)) = Ok m
    /\ m !! (w + 1) = Some text
    /\ text_includes pace_improved text = true.
Proof.
  intros Hw Hprev H1 Hle Hp Hp0 Hpp Hpp0 Hlt.
  destruct (adjust_plan_lookup_next logs w d Hw) as (m & Hm & Hnext).
  destruct (adjustment_for_includes logs w d pace_improved Hle)
    as (text & Htext & _ & Hinc).
  { unfold suggestions. rewrite !elem_of_app. right; right.
    unfold pace_suggestions. rewrite Hprev, Hp, Hpp. simpl.
    apply Qeq_bool_false in Hp0, Hpp0. rewrite Hp0, Hpp0.
    destruct (1 <? w) eqn:E; [| lia]. simpl.
    apply Qltb_lt in Hlt. rewrite Hlt. apply list_elem_of_here. }
  exists m, text. by rewrite Hnext.
Qed.

Lemma adjust_plan_pace_improvement_witness :
  exists m text,
    adjust_plan (File (Ok logs_improving)) = Ok m
    /\ m !! 3 = Some text
    /\ text_includes pace_improved text = true.
Proof.
  exact (adjust_plan_pace_improvement logs_improving 2
           (week_entry (Some 6.5%Q) None (Some 7) false "" "2025-01-13 08:00:00")
           (week_entry (Some 7.0%Q) None (Some 6) false "" "2025-01-06 08:00:00")
           6.5%Q 7.0%Q eq_refl eq_refl ltac:(lia) ltac:(lia)
           eq_refl ltac:(discriminate) eq_refl ltac:(discriminate) eq_refl).
Defined.

(** X17 (adjust_plan, nothing to say): a logged week that was not skipped,
    whose recovery is missing or between 6 and 8, and that is week 1 or
    earlier or has no pace, leaves no entry for the following week. *)
Theorem adjust_plan_no_entry (logs : logs_t) (w : Z) (d : weekly_log) :
  logs !! w = Some d ->
  skipped_flag d = false ->
  (get (recovery d) = None \/ exists r, get (recovery d) = Some r /\ 6 <= r <= 8) ->
  (w <= 1 \/ get (pace d) = None) ->
  exists m, adjust_plan (File (Ok logs)) = Ok m /\ m !! (w + 1) = None.
Proof.
  intros Hw Hs Hr Hp.
  destruct (adjust_plan_lookup_next logs w d Hw) as (m & Hm & Hnext).
  exists m. split; [done |]. rewrite Hnext.
  unfold adjustment_for. destruct (7 <? w + 1); [done |].
  assert (Hnil : suggestions logs w d = []); [| by rewrite Hnil].
  unfold suggestions. rewrite Hs. simpl.
  assert (Hrec : recovery_suggestions d = []).
  { unfold recovery_suggestions.
    destruct Hr as [-> | (r & -> & Hr)]; [done |].
    destruct (r <? 4) eqn:E4; [lia |].
    destruct (r <? 6) eqn:E6; [lia |].
    destruct (8 <? r) eqn:E8; [lia |].
    destruct (9 <=? r) eqn:E9; [lia | done]. }
  rewrite Hrec. simpl. unfold pace_suggestions.
  destruct Hp as [Hle | ->].
  - destruct (1 <? w) eqn:E; [lia | done].
  - simpl. by rewrite andb_false_r.
Qed.

Lemma adjust_plan_no_entry_witness :
  exists m,
    adjust_plan
      (File (Ok {[ 1 := week_entry (Some 6.5%Q) (Some 3.0%Q) (Some 7) false ""
                          "2025-01-06 08:00:00" ]}))
    = Ok m
    /\ m !! 2 = None.
Proof.
  apply (adjust_plan_no_entry
           {[ 1 := week_entry (Some 6.5%Q) (Some 3.0%Q) (Some 7) false ""
                     "2025-01-06 08:00:00" ]}
           1 (week_entry (Some 6.5%Q) (Some 3.0%Q) (Some 7) false ""
                "2025-01-06 08:00:00")).
  - reflexivity.
  - reflexivity.
  - right. exists 7. split; [reflexivity | lia].
  - left. lia.
Defined.

(** * More on the race-time prediction *)

Section Prediction.

Implicit Types (logs : logs_t) (d : weekly_log).

Lemma predict_5k_at logs w d p :
  latest_with_pace logs w d p ->
  predict_5k (File (Ok logs)) = (pr ← predict w d p; Ok (format_prediction pr)).
Proof.
  intros Hlatest. unfold predict_5k. rewrite load_logs_stored. simpl.
  destruct (decide (logs = ∅)) as [-> | _].
  { destruct Hlatest as [Hw _]. by rewrite lookup_empty in Hw. }
  by rewrite (predict_latest_at _ _ _ _ Hlatest).
Qed.

Lemma latest_with_pace_singleton w d p :
  get (pace d) = Some p -> latest_with_pace {[ w := d ]} w d p.
Proof.
  intros Hp. split; [apply lookup_singleton_eq |]. split; [done |].
  intros w' d' [<- _]%lookup_singleton_Some _. lia.
Qed.

(** Powers of a factor between 0 and 1 stay between 0 and 1. *)
Lemma Qpower_positive_unit a n :
  (0 <= a)%Q -> (a <= 1)%Q -> (0 <= Qpower_positive a n <= 1)%Q.
Proof.
  intros H0 H1. induction n as [| n IH] using Pos.peano_ind.
  - simpl. done.
  - rewrite <- Pos.add_1_l, Qpower_plus_positive. simpl.
    destruct IH as [IH0 IH1]. split.
    + by apply Qmult_le_0_compat.
    + apply Qle_trans with (1 * Qpower_positive a n)%Q.
      * by apply Qmult_le_compat_r.
      * by rewrite Qmult_1_l.
Qed.

Lemma Qpower_unit a (k : Z) :
  (0 <= a)%Q -> (a <= 1)%Q -> 0 <= k -> (0 <= Qpower a k <= 1)%Q.
Proof.
  intros H0 H1 Hk. destruct k as [| n | n]; [done | | lia].
  simpl. by apply Qpower_positive_unit.
Qed.

End Prediction.

(** X18 (predict_5k, stored null recovery): when the highest-numbered week
    with a pace has its recovery stored as null, as [log_week] stores an
    omitted recovery, [predict_5k] raises a TypeError instead of returning a
    text. *)
Theorem predict_5k_null_recovery (logs : logs_t) (w : Z) (d : weekly_log) (p : Q) :
  latest_with_pace logs w d p ->
  recovery d = Null ->
  predict_5k (File (Ok logs)) = Raise TypeError.
Proof.
  intros Hlatest Hr. rewrite (predict_5k_at _ _ _ _ Hlatest).
  unfold predict, improvement_rate. by rewrite Hr.
Qed.

Lemma predict_5k_null_recovery_witness :
  predict_5k (File (Ok logs_pace_only)) = Raise TypeError.
Proof.
  exact (predict_5k_null_recovery logs_pace_only 1
           (week_entry (Some 6.0%Q) None None false "" "2025-01-06 08:00:00") 6.0%Q
           (latest_with_pace_singleton 1
              (week_entry (Some 6.0%Q) None None false "" "2025-01-06 08:00:00")
              6.0%Q eq_refl)
           eq_refl).
Defined.

(** X19 (predict_5k, only the latest pace counts): the result, text or
    exception, is the one [predict_5k] gives on a log holding nothing but the
    highest-numbered week with a pace. *)
Theorem predict_5k_only_latest (logs : logs_t) (w : Z) (d : weekly_log) (p : Q) :
  latest_with_pace logs w d p ->
  predict_5k (File (Ok logs)) = predict_5k (File (Ok {[ w := d ]})).
Proof.
  intros Hlatest. rewrite (predict_5k_at _ _ _ _ Hlatest).
  destruct Hlatest as (_ & Hp & _).
  by rewrite (predict_5k_at _ _ _ _ (latest_with_pace_singleton w d p Hp)).
Qed.

Lemma predict_5k_only_latest_witness :
  latest_with_pace logs_improving 2
    (week_entry (Some 6.5%Q) None (Some 7) false "" "2025-01-13 08:00:00") 6.5%Q
  /\ predict_5k (File (Ok logs_improving))
     = predict_5k
         (File (Ok {[ 2 := week_entry (Some 6.5%Q) None (Some 7) false ""
                             "2025-01-13 08:00:00" ]})).
Proof.
  assert (H : latest_with_pace logs_improving 2
                (week_entry (Some 6.5%Q) None (Some 7) false "" "2025-01-13 08:00:00")
                6.5%Q).
  { split; [reflexivity |]. split; [reflexivity |].
    unfold logs_improving. intros w' d' Hw' _.
    apply lookup_insert_Some in Hw' as [[<- _] | [_ Hw']]; [lia |].
    apply lookup_singleton_Some in Hw' as [<- _]. lia. }
  split; [exact H |].
  exact (predict_5k_only_latest logs_improving 2 _ 6.5%Q H).
Defined.

(** X20 (predict_5k, direction of the projection): for a non-negative pace,
    a reported projected race-day time is never negative and never above the
    current estimate, so the reported improvement is never negative. *)
Theorem predict_5k_projection_bounds (logs : logs_t) (w : Z) (d : weekly_log) (p : Q)
  (lw : Z) (current projected_time improvement : Q) (remaining : Z) :
  latest_with_pace logs w d p ->
  (0 <= p)%Q ->
  predict_5k (File (Ok logs)) = Ok (projected lw current projected_time improvement remaining) ->
  (0 <= projected_time)%Q /\ (projected_time <= current)%Q /\ (0 <= improvement)%Q.
Proof.
  intros Hlatest Hp. rewrite (predict_5k_at _ _ _ _ Hlatest). unfold predict.
  destruct (improvement_rate d) as [rate |] eqn:Er; [| done]. simpl.
  assert (Hrate : (0 <= 1 - rate)%Q /\ (1 - rate <= 1)%Q).
  { unfold improvement_rate in Er.
    destruct (recovery d) as [| | r]; [| done |].
    - injection Er as <-. split; lra.
    - repeat case_match; injection Er as <-; split; lra. }
  destruct Hrate as [Hr0 Hr1].
  destruct (Qpower_unit (1 - rate) (Z.max 0 (7 - w)) Hr0 Hr1 ltac:(lia)) as [Hpw0 Hpw1].
  unfold format_prediction. simpl.
  destruct (0 <? Z.max 0 (7 - w)); [| done].
  intros [= <- <- <- <- <-].
  assert (Hc : (0 <= p * 5)%Q) by lra.
  assert (Hle : (p * 5 * Qpower (1 - rate) (Z.max 0 (7 - w)) <= p * 5)%Q).
  { rewrite <- (Qmult_1_r (p * 5)) at 2.
    rewrite !(Qmult_comm (p * 5)). by apply Qmult_le_compat_r. }
  split; [by apply Qmult_le_0_compat |]. split; [done | lra].
Qed.

Lemma predict_5k_projection_bounds_witness :
  exists current projected_time improvement : Q,
    predict_5k (File (Ok logs_week_2))
    = Ok (projected 2 current projected_time improvement 5)
    /\ (0 <= projected_time)%Q /\ (projected_time <= current)%Q
    /\ (0 <= improvement)%Q.
Proof.
  eexists _, _, _.
  assert (H : latest_with_pace logs_week_2 2
                (week_entry (Some 6.0%Q) None (Some 7) false "" "2025-01-13 08:00:00")
                6.0%Q) by (apply latest_with_pace_singleton; reflexivity).
  assert (Hp : (0 <= 6.0)%Q) by (apply Qle_bool_iff; reflexivity).
  split; [vm_compute; reflexivity |].
  apply (predict_5k_projection_bounds logs_week_2 2 _ 6.0%Q 2 _ _ _ 5 H Hp).
  vm_compute; reflexivity.
Defined.

(** * More on the distance models *)

Section MoreDistances.

Lemma reduction_factor_short r : (r <= 1.0)%Q -> reduction_factor r = 1.0%Q.
Proof.
  intros Hr. unfold reduction_factor. apply Qle_bool_iff in Hr. by rewrite Hr.
Qed.

Lemma reduction_factor_floor r : (0.729 <= reduction_factor r)%Q.
Proof.
  unfold reduction_factor.
  repeat match goal with
  | |- context [Qle_bool ?a ?b] => destruct (Qle_bool a b)
  end; lra.
Qed.

Lemma lookup_both_models sessions base run_speed walk_speed (k : nat) s constant fatigue :
  calculate_distances sessions run_speed walk_speed !! k = Some (s, constant) ->
  calculate_distances_with_fatigue sessions base walk_speed !! k = Some (s, fatigue) ->
  constant = distances_at s run_speed walk_speed
  /\ fatigue = fatigue_session base walk_speed s.
Proof.
  rewrite lookup_calculate_distances, lookup_calculate_distances_with_fatigue.
  destruct (sessions !! k) as [s' |]; [| done]. simpl.
  intros [= -> <-] [= <-]. done.
Qed.

End MoreDistances.

(** X21 (short intervals): for a session whose single run lasts at most one
    minute the fatigue model changes nothing: with the same base speed, run
    distance and total distance are those of the constant-speed model. *)
Theorem fatigue_equals_constant_up_to_one_minute
  (sessions : list session_data) (base_run_speed_kmh run_speed_m_per_min walk_speed : Q)
  (k : nat) (s : session_data) (constant : distances) (fatigue : Q * Q * distances) :
  (run_speed_m_per_min == base_run_speed_kmh * 1000 / 60)%Q ->
  calculate_distances sessions run_speed_m_per_min walk_speed !! k = Some (s, constant) ->
  calculate_distances_with_fatigue sessions base_run_speed_kmh walk_speed !! k
    = Some (s, fatigue) ->
  (run_min s <= 1.0)%Q ->
  (run_distance_m fatigue.2 == run_distance_m constant)%Q
  /\ (total_distance_km fatigue.2 == total_distance_km constant)%Q.
Proof.
  intros Hspeed Hc Hf Hr.
  destruct (lookup_both_models _ _ _ _ _ _ _ _ Hc Hf) as [-> ->].
  unfold fatigue_session, get_adjusted_speed, distances_at. simpl.
  rewrite (reduction_factor_short _ Hr), Hspeed. split; field.
Qed.

Lemma fatigue_equals_constant_up_to_one_minute_witness :
  (run_distance_m
     (fatigue_session default_base_run_speed_kmh default_walk_speed_m_per_min
        (extract_session (make_session 1))).2
   == run_distance_m
        (distances_at (extract_session (make_session 1))
           default_run_speed_m_per_min default_walk_speed_m_per_min))%Q.
Proof.
  apply (fatigue_equals_constant_up_to_one_minute extract_session_data
           default_base_run_speed_kmh default_run_speed_m_per_min
           default_walk_speed_m_per_min 0 (extract_session (make_session 1))).
  - reflexivity.
  - reflexivity.
  - reflexivity.
  - apply Qle_bool_iff; reflexivity.
Defined.

(** X22 (floor of the fatigue model): with the same non-negative base speed
    and a non-negative total run time, the fatigue model keeps more than 72%
    of the constant-speed run distance of a session: the run distance it
    gives is at least 0.72 times the constant-speed one (the smallest factor
    of the model is 0.729). *)
Theorem fatigue_keeps_72_percent
  (sessions : list session_data) (base_run_speed_kmh run_speed_m_per_min walk_speed : Q)
  (k : nat) (s : session_data) (constant : distances) (fatigue : Q * Q * distances) :
  (0 <= base_run_speed_kmh)%Q ->
  (run_speed_m_per_min == base_run_speed_kmh * 1000 / 60)%Q ->
  calculate_distances sessions run_speed_m_per_min walk_speed !! k = Some (s, constant) ->
  calculate_distances_with_fatigue sessions base_run_speed_kmh walk_speed !! k
    = Some (s, fatigue) ->
  (0 <= total_run_min s)%Q ->
  (0.72 * run_distance_m constant <= run_distance_m fatigue.2)%Q.
Proof.
  intros Hbase Hspeed Hc Hf Ht.
  destruct (lookup_both_models _ _ _ _ _ _ _ _ Hc Hf) as [-> ->].
  rewrite fatigue_run_distance, (constant_run_distance _ _ _ _ Hspeed).
  apply Qle_trans with (total_run_min s * (base_run_speed_kmh * 0.72 * (50 # 3)))%Q.
  - apply Qle_lteq. right. ring.
  - apply scale_le; [done | done |].
    pose proof (reduction_factor_floor (run_min s)). lra.
Qed.

Lemma fatigue_keeps_72_percent_witness :
  (0.72 * run_distance_m
            (distances_at (extract_session (make_session 6))
               default_run_speed_m_per_min default_walk_speed_m_per_min)
   <= run_distance_m
        (fatigue_session default_base_run_speed_kmh default_walk_speed_m_per_min
           (extract_session (make_session 6))).2)%Q.
Proof.
  apply (fatigue_keeps_72_percent extract_session_data
           default_base_run_speed_kmh default_run_speed_m_per_min
           default_walk_speed_m_per_min 5 (extract_session (make_session 6))).
  - apply Qle_bool_iff; reflexivity.
  - reflexivity.
  - reflexivity.
  - reflexivity.
  - apply Qle_bool_iff; reflexivity.
Defined.

(** * The dashboard *)

Section Dashboard.

Lemma Qdiv_pos a b : (0 < a)%Q -> (0 < b)%Q -> (0 < a / b)%Q.
Proof.
  intros Ha Hb. apply Qlt_shift_div_l; [done |]. by rewrite Qmult_0_l.
Qed.


End Dashboard.


(** X24 (dashboard speed bands): for a non-negative base speed the speed the
    dashboard uses never rises with the run duration, in fixed and in
    variable pace mode, and stays between 70% of the base speed and the base
    speed itself. *)
Theorem dashboard_speed_bands (is_fixed_pace : bool) (base_speed_kmh r1 r2 : Q) :
  (0 <= base_speed_kmh)%Q ->
  (r1 <= r2)%Q ->
  (dashboard_speed_kmh is_fixed_pace base_speed_kmh r2
   <= dashboard_speed_kmh is_fixed_pace base_speed_kmh r1)%Q
  /\ (0.7 * base_speed_kmh <= dashboard_speed_kmh is_fixed_pace base_speed_kmh r1)%Q
  /\ (dashboard_speed_kmh is_fixed_pace base_speed_kmh r1 <= base_speed_kmh)%Q.
Proof.
  intros Hb Hr. unfold dashboard_speed_kmh.
  destruct is_fixed_pace; [repeat split; lra |].
  repeat match goal with
  | |- context [Qle_bool ?a ?b] =>
    let E := fresh "E" in
    destruct (Qle_bool a b) eqn:E;
    [apply Qle_bool_iff in E | apply Qle_bool_false in E]
  end; repeat split; lra.
Qed.

Lemma dashboard_speed_bands_witness :
  (dashboard_speed_kmh false 8 10 <= dashboard_speed_kmh false 8 2)%Q.
Proof.
  apply (dashboard_speed_bands false 8 2 10).
  - apply Qle_bool_iff; reflexivity.
  - apply Qle_bool_iff; reflexivity.
Defined.

Section DashboardDistances.

Lemma get_running_speed_kmh_pos st : (0 < get_running_speed_kmh st)%Q.
Proof.
  unfold get_running_speed_kmh.
  destruct (Qltb 0 _) eqn:E; [| done].
  apply Qltb_lt in E. by apply Qdiv_pos.
Qed.

Lemma dashboard_speed_kmh_range is_fixed_pace base r :
  (0 <= base)%Q ->
  (0 <= dashboard_speed_kmh is_fixed_pace base r <= base)%Q.
Proof.
  intros Hb. unfold dashboard_speed_kmh.
  destruct is_fixed_pace; [split; lra |].
  repeat match goal with
  | |- context [Qle_bool ?a ?b] => destruct (Qle_bool a b)
  end; split; lra.
Qed.

Lemma Qmult_le_compat_nonneg_l x y z :
  (0 <= z)%Q -> (x <= y)%Q -> (z * x <= z * y)%Q.
Proof. intros Hz Hxy. rewrite !(Qmult_comm z). by apply Qmult_le_compat_r. Qed.

End DashboardDistances.

(** X25 (dashboard, variable against fixed pace): for a row with a
    non-negative run time and a non-negative number of sets, switching the
    dashboard from fixed to variable pace never lengthens the running
    distance or the total distance of the row, and the running distance
    stays non-negative. *)
Theorem dashboard_variable_pace_not_farther (st : pace_settings) (row : dashboard_row) :
  (0 <= row_run row)%Q ->
  0 <= row_sets row ->
  ((dashboard_distances (with_fixed_pace false st) row).1
   <= (dashboard_distances (with_fixed_pace true st) row).1)%Q
  /\ ((dashboard_distances (with_fixed_pace false st) row).2
      <= (dashboard_distances (with_fixed_pace true st) row).2)%Q
  /\ (0 <= (dashboard_distances (with_fixed_pace false st) row).1)%Q.
Proof.
  intros Hrun Hsets.
  unfold dashboard_distances, is_fixed_pace_mode. simpl.
  change (get_running_speed_kmh (with_fixed_pace false st))
    with (get_running_speed_kmh st).
  change (get_running_speed_kmh (with_fixed_pace true st))
    with (get_running_speed_kmh st).
  pose proof (get_running_speed_kmh_pos st) as Hbase.
  set (base := get_running_speed_kmh st) in *.
  assert (Hb : (0 <= base)%Q) by lra.
  destruct (dashboard_speed_kmh_range false base (row_run row) Hb) as [Hv0 Hv].
  change (dashboard_speed_kmh true base (row_run row)) with base.
  set (v := dashboard_speed_kmh false base (row_run row)) in *.
  assert (Hr60 : (0 <= row_run row / 60)%Q).
  { apply Qle_shift_div_l; [done | lra]. }
  assert (Hs : (0 <= inject_Z (row_sets row))%Q).
  { unfold Qle. simpl. lia. }
  assert (Hx : (0 <= inject_Z (row_sets row) * (row_run row / 60))%Q)
    by (by apply Qmult_le_0_compat).
  destruct (Qeq_bool (row_walk row) 0); simpl.
  - pose proof (Qmult_le_compat_nonneg_l v base _ Hr60 Hv) as Hle.
    split; [exact Hle |]. split; [by apply Qplus_le_l |].
    by apply Qmult_le_0_compat.
  - pose proof (Qmult_le_compat_nonneg_l v base _ Hx Hv) as Hle.
    split; [exact Hle |]. split; [by apply Qplus_le_l |].
    by apply Qmult_le_0_compat.
Qed.

Lemma dashboard_variable_pace_not_farther_witness :
  ((dashboard_distances (with_fixed_pace false default_settings)
      (session_row (make_session 6))).1
   <= (dashboard_distances (with_fixed_pace true default_settings)
         (session_row (make_session 6))).1)%Q.
Proof.
  apply (dashboard_variable_pace_not_farther default_settings
           (session_row (make_session 6))).
  - apply Qle_bool_iff; reflexivity.
  - vm_compute; discriminate.
Defined.

(** X26 (dashboard day numbers): the day number the dashboard derives from
    a generated record's day name is the day number the record itself
    carries. *)
Theorem session_row_day (count : Z) :
  Forall (fun r => row_day (session_row r) = day r) (generate_detailed_sessions count).
Proof.
  apply Forall_forall. intros r [i [Hi ->]]%generate_elem.
  unfold session_row. simpl.
  destruct (day_make_session i) as [-> ->].
  destruct (slot_cases i) as [E | [E | E]]; rewrite E; reflexivity.
Qed.

(** The list for one more session is the list so far and one record. *)
Lemma generate_detailed_sessions_snoc count :
  1 <= count ->
  generate_detailed_sessions count
  = generate_detailed_sessions (count - 1) ++ [make_session count].
Proof.
  intros Hc. unfold generate_detailed_sessions, range.
  replace (Z.to_nat (count + 1 - 1)) with (S (Z.to_nat (count - 1 + 1 - 1))) by lia.
  rewrite seq_S, !map_app. simpl. do 3 f_equal. lia.
Qed.

Lemma next_session_number_generated count :
  0 <= count ->
  next_session_number (map session_row (generate_detailed_sessions count)) = count + 1.
Proof.
  intros Hc. unfold next_session_number.
  destruct (decide (count = 0)) as [-> | Hne]; [reflexivity |].
  rewrite generate_detailed_sessions_snoc by lia.
  rewrite !map_app. simpl. rewrite last_last. simpl.
  by rewrite session_make_session.
Qed.

Lemma int64_id z :
  -9223372036854775808 <= z < 9223372036854775808 -> int64 z = z.
Proof. intros Hz. unfold int64. rewrite Z.mod_small; lia. Qed.

(** X27 (add_new_session): when the last session number is below the
    largest int64 (or the table is empty), the table grows by exactly one row
    at its end; the row is numbered one past the last row (1 on an empty
    table), its week is (session - 1) // 3 + 1, for a session number from 1
    on its week and day are those [generate_detailed_sessions] gives that
    session, and its totals follow from its run, walk and sets.  On the table
    of the first count generated sessions the number of the new row is
    count + 1. *)
Theorem add_new_session_appends (df : list dashboard_row) :
  (forall last_session,
     List.last (map Some df) None = Some last_session ->
     -9223372036854775808 <= row_session last_session < 9223372036854775807) ->
  (exists new,
     add_new_session df = df ++ [new]
     /\ row_session new = next_session_number df
     /\ row_week new = (row_session new - 1) / 3 + 1
     /\ (1 <= row_session new ->
         row_week new = week (make_session (row_session new))
         /\ row_day new = day (make_session (row_session new)))
     /\ (row_total_run new == row_run new * inject_Z (row_sets new))%Q
     /\ (row_total_workout new
         == (row_run new + row_walk new) * inject_Z (row_sets new))%Q)
  /\ forall count,
       0 <= count ->
       df = map session_row (generate_detailed_sessions count) ->
       next_session_number df = count + 1.
Proof.
  intros Hrange.
  split; [| intros count Hc ->; by apply next_session_number_generated].
  unfold add_new_session, next_session_number.
  destruct (List.last (map Some df) None) as [l |].
  - specialize (Hrange l eq_refl).
    pose proof (Z.mod_pos_bound (row_session l) 3 ltac:(lia)) as Hmod.
    assert (Hdiv : -9223372036854775808 <= row_session l / 3 + 1 < 9223372036854775808)
      by (Z.to_euclidean_division_equations; lia).
    rewrite (int64_id (row_session l + 1)) by lia.
    replace (row_session l + 1 - 1) with (row_session l) by lia.
    rewrite (int64_id (row_session l)) by lia.
    rewrite (int64_id (row_session l / 3 + 1)) by lia.
    rewrite (int64_id (row_session l mod 3 + 1)) by lia.
    eexists. split; [reflexivity |]. simpl. split; [done |].
    replace (row_session l + 1 - 1) with (row_session l) by lia.
    split; [done |]. split; [| split; reflexivity].
    intros _. rewrite week_make_session.
    destruct (day_make_session (row_session l + 1)) as [-> _].
    replace (row_session l + 1 - 1) with (row_session l) by lia. done.
  - eexists. split; [reflexivity |]. simpl.
    repeat split; reflexivity.
Qed.

Lemma add_new_session_appends_witness :
  exists new,
    add_new_session get_session_data = get_session_data ++ [new]
    /\ row_session new = 22
    /\ row_week new = 8.
Proof.
  assert (Hrange : forall last_session,
            List.last (map Some get_session_data) None = Some last_session ->
            -9223372036854775808 <= row_session last_session < 9223372036854775807).
  { intros l Hl. vm_compute in Hl. injection Hl as <-. simpl. lia. }
  destruct (add_new_session_appends get_session_data Hrange)
    as [(new & Happ & Hnum & Hweek & _) Hgen].
  exists new. split; [exact Happ |].
  assert (Hn : row_session new = 22).
  { rewrite Hnum. exact (Hgen 21 ltac:(lia) eq_refl). }
  split; [exact Hn |]. rewrite Hweek, Hn. reflexivity.
Defined.

(** * The progression analysis *)

Section Progression.

Lemma count_decreases_cons prev cur rest :
  count_decreases (prev :: cur :: rest)
  = ((if Qltb cur prev then 1 else 0) + count_decreases (cur :: rest))%nat.
Proof. reflexivity. Qed.

Lemma count_decreases_bound xs : (count_decreases xs <= pred (length xs))%nat.
Proof.
  induction xs as [| prev [| cur rest] IH]; [done | done |].
  rewrite count_decreases_cons. simpl in *. destruct (Qltb cur prev); lia.
Qed.

(** No decrease is counted exactly when no running time is below the one
    before it. *)
Lemma count_decreases_zero xs :
  count_decreases xs = 0%nat
  <-> forall (i : nat) a b, xs !! i = Some a -> xs !! S i = Some b -> (a <= b)%Q.
Proof.
  induction xs as [| prev [| cur rest] IH].
  - split; [by intros _ i a b ? | done].
  - split; [by intros _ [| i] a b ? ? | done].
  - rewrite count_decreases_cons. split.
    + intros H. destruct (Qltb cur prev) eqn:E; [done |].
      simpl in H. destruct IH as [IH _]. specialize (IH H).
      intros [| i] a b Ha Hb.
      * injection Ha as <-. injection Hb as <-.
        apply Qnot_lt_le. intros Hlt. apply Qltb_lt in Hlt. congruence.
      * exact (IH i a b Ha Hb).
    + intros H.
      assert (Hle : (prev <= cur)%Q) by exact (H 0%nat prev cur eq_refl eq_refl).
      assert (E : Qltb cur prev = false).
      { apply not_true_iff_false. rewrite Qltb_lt. by apply Qle_not_lt. }
      rewrite E. simpl. apply IH. intros i a b Ha Hb. exact (H (S i) a b Ha Hb).
Qed.

Lemma has_distances_all sessions :
  forallb has_distances sessions = true <-> Forall (fun s => is_Some s.2) sessions.
Proof.
  induction sessions as [| [s [d |]] rest IH]; simpl.
  - split; [by constructor | done].
  - rewrite IH. split; [intros H; by constructor | by inversion 1].
  - split; [done |]. inversion 1 as [| ? ? [? Hd] ?]. discriminate Hd.
Qed.

Lemma has_distances_missing sessions :
  forallb has_distances sessions = false <-> exists s, (s, None) ∈ sessions.
Proof.
  induction sessions as [| [s [d |]] rest IH]; simpl.
  - split; [done | by intros [s ?%elem_of_nil]].
  - rewrite IH. split.
    + intros [s' Hs']. exists s'. by apply list_elem_of_further.
    + intros [s' [[=] | Hs']%elem_of_cons]. by exists s'.
  - split; [| done]. intros _. exists s. apply list_elem_of_here.
Qed.

Lemma analyze_progressive_overload_inr sessions pr :
  analyze_progressive_overload sessions = inr pr ->
  decreases pr = count_decreases (map (fun s => total_run_min s.1) sessions)
  /\ progressions pr = Z.of_nat (length sessions) - 1
  /\ rating pr = rate_decreases (decreases pr)
  /\ sessions ≠ [].
Proof.
  unfold analyze_progressive_overload.
  destruct (forallb has_distances sessions); [| done]. simpl.
  destruct sessions as [| s rest]; [done |]. simpl.
  destruct (Qeq_bool (total_run_min s.1) 0); [done |].
  by intros [= <-].
Qed.

End Progression.

(** X28 (analyze_progressive_overload, failures): the analysis raises a
    KeyError exactly when some session has no distance keys; otherwise an
    IndexError exactly on an empty list; otherwise a ZeroDivisionError
    exactly when the first session has a total running time of zero.  On the
    sessions [calculate_distances_with_fatigue] returns for the sessions
    extracted from a generated list of at least one session, as [main] calls
    it, it raises nothing. *)
Theorem analyze_progressive_overload_failures
  (sessions : list (session_data * option distances)) :
  (forall e, analyze_progressive_overload sessions = inl e
             <-> (e = KeyError /\ exists s, (s, None) ∈ sessions)
                 \/ (e = IndexError /\ sessions = [])
                 \/ (e = ZeroDivisionError
                     /\ Forall (fun s => is_Some s.2) sessions
                     /\ exists s rest, sessions = s :: rest
                                       /\ (total_run_min s.1 == 0)%Q))
  /\ (forall count base_run_speed_kmh walk_speed,
        1 <= count ->
        sessions
        = with_fatigue_distances
            (calculate_distances_with_fatigue
               (map extract_session (generate_detailed_sessions count))
               base_run_speed_kmh walk_speed) ->
        exists pr, analyze_progressive_overload sessions = inr pr).
Proof.
  split.
  - intros e. unfold analyze_progressive_overload.
    destruct (forallb has_distances sessions) eqn:Eall; simpl.
    + pose proof Eall as Hall. apply has_distances_all in Hall.
      assert (Hnone : ~ exists s, (s, None) ∈ sessions).
      { intros Hex. apply has_distances_missing in Hex. congruence. }
      destruct sessions as [| s rest]; simpl.
      * split; [intros [= <-]; right; by left |].
        intros [[_ Hex] | [[-> _] | (_ & _ & s & rest & [=] & _)]]; done.
      * destruct (Qeq_bool (total_run_min s.1) 0) eqn:E.
        -- apply Qeq_bool_iff in E. split.
           ++ intros [= <-]. right; right. split; [done |]. split; [done |].
              by exists s, rest.
           ++ intros [[_ Hex] | [[_ [=]] | (-> & _)]]; done.
        -- apply Qeq_bool_false in E. split; [done |].
           intros [[_ Hex] | [[_ [=]] | (_ & _ & s' & rest' & [= <- <-] & Hz)]]; done.
    + pose proof Eall as Hex. apply has_distances_missing in Hex.
      split; [intros [= <-]; by left |].
      intros [[-> _] | [[_ ->] | (_ & Hall & _)]]; [done | done |].
      apply has_distances_all in Hall. congruence.
  - intros count base walk Hc ->.
    pose proof (lookup_generate count 0 ltac:(lia)) as H0.
    unfold analyze_progressive_overload.
    assert (Hall : forallb has_distances
                     (with_fatigue_distances
                        (calculate_distances_with_fatigue
                           (map extract_session (generate_detailed_sessions count))
                           base walk)) = true).
    { apply has_distances_all, Forall_forall. intros s Hs.
      unfold with_fatigue_distances in Hs. change (map ?f ?l) with (f <$> l) in Hs.
      apply list_elem_of_fmap in Hs as (x & -> & _). by eexists. }
    rewrite Hall. simpl.
    destruct (generate_detailed_sessions count) as [| r rest]; [done |].
    injection H0 as ->. simpl.
    change (Qeq_bool (total_run_time (make_session 1)) 0) with false.
    by eexists.
Qed.

(** X29 (analyze_progressive_overload, decreases): when the analysis returns,
    the number of decreases is at most the number of progressions; it is zero
    exactly when no session has a total running time below that of the
    session before it, and then the plan is rated as good progressive
    overload. *)
Theorem analyze_progressive_overload_decreases
  (sessions : list (session_data * option distances)) (pr : progression) :
  analyze_progressive_overload sessions = inr pr ->
  Z.of_nat (decreases pr) <= progressions pr
  /\ (decreases pr = 0%nat
      <-> forall (i : nat) a b,
            sessions !! i = Some a -> sessions !! S i = Some b ->
            (total_run_min a.1 <= total_run_min b.1)%Q)
  /\ (decreases pr = 0%nat -> rating pr = good_overload).
Proof.
  intros H. destruct (analyze_progressive_overload_inr _ _ H) as (Hd & Hp & Hr & Hne).
  rewrite Hr, Hd, Hp. split; [| split].
  - pose proof (count_decreases_bound
                  (map (fun s => total_run_min s.1) sessions)) as Hb.
    rewrite length_map in Hb. destruct sessions; [done |]. simpl in *. lia.
  - rewrite count_decreases_zero. change (map ?f ?l) with (f <$> l). split.
    + intros Hall i a b Ha Hb.
      apply (Hall i); rewrite list_lookup_fmap; [by rewrite Ha | by rewrite Hb].
    + intros Hall i a b Ha Hb. rewrite list_lookup_fmap in Ha, Hb.
      destruct (sessions !! i) as [sa |] eqn:Ea; [| done].
      destruct (sessions !! S i) as [sb |] eqn:Eb; [| done].
      injection Ha as <-. injection Hb as <-. by apply (Hall i).
  - by intros ->.
Qed.

Lemma analyze_progressive_overload_decreases_witness :
  exists pr,
    analyze_progressive_overload
      (with_fatigue_distances
         (calculate_distances_with_fatigue
            (map extract_session (generate_detailed_sessions 3))
            default_base_run_speed_kmh default_walk_speed_m_per_min)) = inr pr
    /\ Z.of_nat (decreases pr) <= progressions pr
    /\ decreases pr = 0%nat
    /\ rating pr = good_overload.
Proof.
  eexists. split; [vm_compute; reflexivity |].
  destruct (analyze_progressive_overload_decreases
              (with_fatigue_distances
                 (calculate_distances_with_fatigue
                    (map extract_session (generate_detailed_sessions 3))
                    default_base_run_speed_kmh default_walk_speed_m_per_min)) _
              ltac:(vm_compute; reflexivity)) as (Hle & _ & Hgood).
  split; [exact Hle |]. split; [reflexivity | exact (Hgood eq_refl)].
Defined.
